(** * Yomitoku OCR web UI: the job orchestrator of [app.py]

    A shallow embedding of the file-handling core of [app.py]
    ([validate_file_format], [save_uploaded_file], [save_pasted_image],
    [cleanup_temp_files], [run_yomitoku], [generate_download_filename], and
    the input handling and the click handler of [main]) together with the
    properties its design document states about it and further properties
    read off the code.

    The program works on three pieces of ambient state: the file system
    below the working directory, the progress sink and the notices shown by
    the user interface.  They are gathered in a record [World], and the
    Python functions become computations in a small state-and-exception
    monad over it.  The external engine ([subprocess.run]) and the clock
    ([datetime.now]) are inputs of the model. *)

From Stdlib Require Import String Ascii List Bool Arith Lia ZArith QArith Sorted.
Import ListNotations.

Local Open Scope string_scope.
Local Open Scope list_scope.
Local Open Scope nat_scope.

(** ** Python strings (the [str] methods the program calls) *)

Module PyStr.

Definition is_upper (c : ascii) : bool :=
  let n := nat_of_ascii c in (65 <=? n) && (n <=? 90).

Definition lower_ascii (c : ascii) : ascii :=
  if is_upper c then ascii_of_nat (nat_of_ascii c + 32) else c.

(** [s.lower()], on the ASCII letters.  The supported extensions are ASCII,
    and no character outside ASCII lowers to one of their letters. *)
Fixpoint lower (s : string) : string :=
  match s with
  | EmptyString => EmptyString
  | String c s' => String (lower_ascii c) (lower s')
  end.

(** [s.lstrip(c)] for a one-character argument. *)
Fixpoint lstrip (c : ascii) (s : string) : string :=
  match s with
  | EmptyString => EmptyString
  | String a s' => if Ascii.eqb a c then lstrip c s' else s
  end.

(** [s.rfind(c)]; [None] stands for Python's -1. *)
Fixpoint rfind (c : ascii) (s : string) : option nat :=
  match s with
  | EmptyString => None
  | String a s' =>
      match rfind c s' with
      | Some i => Some (S i)
      | None => if Ascii.eqb a c then Some 0 else None
      end
  end.

(** The slices [s[n:]] and [s[:n]]. *)
Fixpoint skip (n : nat) (s : string) : string :=
  match n, s with
  | O, _ => s
  | S _, EmptyString => EmptyString
  | S n', String _ s' => skip n' s'
  end.

Fixpoint take (n : nat) (s : string) : string :=
  match n, s with
  | O, _ => EmptyString
  | S _, EmptyString => EmptyString
  | S n', String a s' => String a (take n' s')
  end.

(** [c in s] for a character. *)
Fixpoint mem (c : ascii) (s : string) : bool :=
  match s with
  | EmptyString => false
  | String a s' => Ascii.eqb a c || mem c s'
  end.

(** [s.split(c)]. *)
Fixpoint split (c : ascii) (s : string) : list string :=
  match s with
  | EmptyString => [EmptyString]
  | String a s' =>
      if Ascii.eqb a c then EmptyString :: split c s'
      else match split c s' with
           | h :: t => String a h :: t
           | [] => [String a EmptyString]
           end
  end.

(** [x or y] on strings: the empty string is falsy. *)
Definition or_else (x y : string) : string :=
  match x with
  | EmptyString => y
  | _ => x
  end.

(** [fnmatch.fnmatchcase(name, pat)] for patterns made of literal
    characters, [*] and [?].  Bracket expressions are not modelled; the
    patterns of this program are ["*."] followed by one of [md], [json],
    [html], [csv], the values of [OUTPUT_FORMATS], and the model is meant for
    these. *)
Fixpoint fnmatch (pat name : string) {struct pat} : bool :=
  match pat with
  | EmptyString =>
      match name with
      | EmptyString => true
      | String _ _ => false
      end
  | String c pat' =>
      if Ascii.eqb c "*" then
        (fix star (s : string) : bool :=
           fnmatch pat' s ||
           match s with
           | EmptyString => false
           | String _ s' => star s'
           end) name
      else
        match name with
        | EmptyString => false
        | String d name' =>
            (Ascii.eqb c "?" || Ascii.eqb c d) && fnmatch pat' name'
        end
  end.

(** The byte [c] lies between [lo] and [hi]. *)
Definition in_range (lo hi : nat) (c : ascii) : bool :=
  let n := nat_of_ascii c in (lo <=? n) && (n <=? hi).

Definition continuation (c : ascii) : bool := in_range 128 191 c.

(** The lead byte [b0] and the byte after it begin a sequence of three, and
    of four, bytes: no overlong form, no surrogate, nothing above U+10FFFF. *)
Definition three_bytes (b0 b1 : ascii) : bool :=
  (in_range 224 224 b0 && in_range 160 191 b1) ||
  (in_range 225 236 b0 && continuation b1) ||
  (in_range 237 237 b0 && in_range 128 159 b1) ||
  (in_range 238 239 b0 && continuation b1).

Definition four_bytes (b0 b1 : ascii) : bool :=
  (in_range 240 240 b0 && in_range 144 191 b1) ||
  (in_range 241 243 b0 && continuation b1) ||
  (in_range 244 244 b0 && in_range 128 143 b1).

(** [bytes.decode("utf-8")] succeeds, with [errors="strict"]. *)
Fixpoint utf8_valid (s : string) : bool :=
  match s with
  | EmptyString => true
  | String b0 s1 =>
      if in_range 0 127 b0 then utf8_valid s1
      else
        match s1 with
        | EmptyString => false
        | String b1 s2 =>
            if in_range 194 223 b0 then continuation b1 && utf8_valid s2
            else
              match s2 with
              | EmptyString => false
              | String b2 s3 =>
                  if three_bytes b0 b1 then continuation b2 && utf8_valid s3
                  else
                    match s3 with
                    | EmptyString => false
                    | String b3 s4 =>
                        four_bytes b0 b1 && continuation b2 &&
                        continuation b3 && utf8_valid s4
                    end
              end
        end
  end.

(** What a file opened in text mode with the default [newline=None] hands
    over: a carriage return with its line feed, and a lone carriage return,
    become one line feed. *)
Fixpoint universal_newlines (s : string) : string :=
  match s with
  | EmptyString => EmptyString
  | String c s' =>
      if Ascii.eqb c (ascii_of_nat 13) then
        String (ascii_of_nat 10)
               match s' with
               | EmptyString => EmptyString
               | String d s'' =>
                   if Ascii.eqb d (ascii_of_nat 10) then universal_newlines s''
                   else universal_newlines s'
               end
      else String c (universal_newlines s')
  end.

End PyStr.

(** ** [pathlib.PurePosixPath] *)

Module Pathlib.

(** A relative path is the list of its components ([Path.parts]).  Every
    path of the program is built from [TEMP_DIR] by [/] with a string
    that starts with a digit or with [output_], so no path is absolute. *)
Definition Path := list string.

Fixpoint eqb (p q : Path) : bool :=
  match p, q with
  | [], [] => true
  | a :: p', b :: q' => String.eqb a b && eqb p' q'
  | _, _ => false
  end.

(** The components of a string: split at the separator, empty and [.]
    components dropped. *)
Definition parse_parts (s : string) : list string :=
  filter (fun x => negb (String.eqb x "") && negb (String.eqb x "."))
         (PyStr.split "/" s).

(** [p / s] *)
Definition div (p : Path) (s : string) : Path := p ++ parse_parts s.

(** [str(p)] *)
Definition str (p : Path) : string :=
  match p with
  | [] => "."
  | _ => String.concat "/" p
  end.

(** [p.name] *)
Definition name (p : Path) : string := last p "".

(** [p.parent] together with [p.name], when [p] has a last component. *)
Fixpoint split_last (p : Path) : option (Path * string) :=
  match p with
  | [] => None
  | [a] => Some ([], a)
  | a :: p' =>
      match split_last p' with
      | Some (d, n) => Some (a :: d, n)
      | None => None
      end
  end.

(** [p.suffix], as [pathlib] defines it up to Python 3.13:
    [i = name.rfind('.')], then [name[i:]] if [0 < i < len(name) - 1]
    and the empty string otherwise. *)
Definition suffix (p : Path) : string :=
  let n := name p in
  match PyStr.rfind "." n with
  | Some i =>
      if (0 <? i) && (i <? String.length n - 1) then PyStr.skip i n else ""
  | None => ""
  end.

(** [p.stem], by the same rule: [name[:i]] where [p.suffix] is [name[i:]],
    and the whole name when there is no suffix. *)
Definition stem (p : Path) : string :=
  let n := name p in
  match PyStr.rfind "." n with
  | Some i =>
      if (0 <? i) && (i <? String.length n - 1) then PyStr.take i n else n
  | None => n
  end.

End Pathlib.

Definition Path : Type := Pathlib.Path.
Infix "//" := Pathlib.div (at level 40, left associativity).

(** ** [datetime.now().strftime("%Y%m%d_%H%M%S")] *)

Record datetime := mk_datetime {
  year : nat; month : nat; day : nat;
  hour : nat; minute : nat; second : nat
}.

Definition digit (n : nat) : ascii := ascii_of_nat (48 + n mod 10).

Definition pad2 (n : nat) : string :=
  String (digit (n / 10)) (String (digit n) "").

(** [%Y] for the years 1000 to 9999, which print with four digits; an
    earlier year prints with fewer on the platform's C library and is outside
    the model. *)
Definition pad4 (n : nat) : string :=
  String (digit (n / 1000)) (String (digit (n / 100)) (pad2 n)).

(** The fields of a [datetime] are zero-padded to their fixed width (a year
    has four digits from 1000 to 9999, the other fields two). *)
Definition strftime_Ymd_HMS (t : datetime) : string :=
  (pad4 (year t) ++ pad2 (month t) ++ pad2 (day t) ++ "_" ++
   pad2 (hour t) ++ pad2 (minute t) ++ pad2 (second t))%string.

(** [datetime.now().strftime("%Y%m%d")] *)
Definition strftime_Ymd (t : datetime) : string :=
  (pad4 (year t) ++ pad2 (month t) ++ pad2 (day t))%string.

Definition valid_datetime (t : datetime) : Prop :=
  year t < 100 * 100 /\ month t < 100 /\ day t < 100 /\
  hour t < 100 /\ minute t < 100 /\ second t < 100.

(** ** Configuration *)

Definition TEMP_DIR : Path := ["temp"].
Definition SUPPORTED_FORMATS : list string :=
  ["png"; "jpg"; "jpeg"; "pdf"; "tiff"; "bmp"].
Definition OUTPUT_FORMATS : list (string * string) :=
  [("Markdown", "md"); ("JSON", "json"); ("HTML", "html"); ("CSV", "csv")].

(** [x in l] for a list of strings. *)
Definition str_in (x : string) (l : list string) : bool :=
  existsb (String.eqb x) l.

(** ** [validate_file_format] *)

Definition validate_file_format (file_path : Path) : bool :=
  let suffix := PyStr.lstrip "." (PyStr.lower (Pathlib.suffix file_path)) in
  str_in suffix SUPPORTED_FORMATS.

(** ** The world: file system, progress sink, user-interface notices *)

Inductive node :=
| File (content : string)
| Dir.

(** The file system below the working directory, as an association list
    from paths to nodes.  The order of the list is the order in which the
    operating system enumerates entries ([os.scandir]); a new entry goes to
    the end. *)
Definition FS := list (Path * node).

Inductive Notice :=
| Warning (msg : string)
| Error (msg : string)
| Success (msg : string).

Record World := mk_world {
  files : FS;
  progress : list (Q * string);   (* calls received by the progress sink *)
  notices : list Notice            (* st.warning / st.error / st.success *)
}.

Definition with_files (fs : FS) (w : World) : World :=
  mk_world fs (progress w) (notices w).

(** ** Exceptions *)

Inductive exn :=
| FileExistsError (p : Path)
| FileNotFoundError (p : Path)
| IsADirectoryError (p : Path)
| NotADirectoryError (p : Path)
| DirectoryNotEmpty (p : Path)
| TypeError (msg : string)
| UnicodeDecodeError
| TimeoutExpired
| OtherException (msg : string).

(** [str(e)] *)
Definition exn_str (e : exn) : string :=
  match e with
  | FileExistsError p => "[Errno 17] File exists: '" ++ Pathlib.str p ++ "'"
  | FileNotFoundError p =>
      "[Errno 2] No such file or directory: '" ++ Pathlib.str p ++ "'"
  | IsADirectoryError p => "[Errno 21] Is a directory: '" ++ Pathlib.str p ++ "'"
  | NotADirectoryError p => "[Errno 20] Not a directory: '" ++ Pathlib.str p ++ "'"
  | DirectoryNotEmpty p => "[Errno 39] Directory not empty: '" ++ Pathlib.str p ++ "'"
  | TypeError msg => msg
  | UnicodeDecodeError => "'utf-8' codec can't decode bytes"
  | TimeoutExpired => "Command timed out"
  | OtherException msg => msg
  end%string.

(** ** The monad of the program: state [World], exceptions [exn] *)

Inductive res (A : Type) :=
| Ok (a : A)
| Raise (e : exn).
Arguments Ok {A} a.
Arguments Raise {A} e.

Definition Eff (A : Type) : Type := World -> res A * World.

Definition ret {A} (a : A) : Eff A := fun w => (Ok a, w).

Definition raise {A} (e : exn) : Eff A := fun w => (Raise e, w).

Definition bind {A B} (m : Eff A) (k : A -> Eff B) : Eff B :=
  fun w =>
    match m w with
    | (Ok a, w') => k a w'
    | (Raise e, w') => (Raise e, w')
    end.

(** [try: m except ... as e: h e]; the effects of [m] up to the exception
    stay. *)
Definition try_except {A} (m : Eff A) (h : exn -> Eff A) : Eff A :=
  fun w =>
    match m w with
    | (Ok a, w') => (Ok a, w')
    | (Raise e, w') => h e w'
    end.

Notation "x <- m ;; k" := (bind m (fun x => k))
  (at level 61, m at next level, right associativity).
Notation "m ;; k" := (bind m (fun _ => k))
  (at level 61, right associativity).

Definition when (b : bool) (m : Eff unit) : Eff unit :=
  if b then m else ret tt.

Fixpoint for_each {A} (l : list A) (body : A -> Eff unit) : Eff unit :=
  match l with
  | [] => ret tt
  | x :: l' => body x ;; for_each l' body
  end.

(** ** File-system operations *)

Module Fs.

Fixpoint lookup (fs : FS) (p : Path) : option node :=
  match fs with
  | [] => None
  | (q, n) :: fs' => if Pathlib.eqb q p then Some n else lookup fs' p
  end.

Definition remove (p : Path) (fs : FS) : FS :=
  filter (fun e => negb (Pathlib.eqb (fst e) p)) fs.

(** Replace the node at [p] where it stands, or add it at the end. Where a
    new entry comes in the enumeration of its directory is up to the file
    system; statements about the order of a listing take the listing as
    given and do not rely on this choice. *)
Fixpoint put (p : Path) (n : node) (fs : FS) : FS :=
  match fs with
  | [] => [(p, n)]
  | (q, m) :: fs' =>
      if Pathlib.eqb q p then (q, n) :: fs' else (q, m) :: put p n fs'
  end.

(** [q] is an immediate child of the directory [d]. *)
Definition is_child (d q : Path) : bool :=
  match Pathlib.split_last q with
  | Some (d', _) => Pathlib.eqb d' d
  | None => false
  end.

Definition children (fs : FS) (d : Path) : list Path :=
  map fst (filter (fun e => is_child d (fst e)) fs).

(** The directory a new entry [p] goes into must exist: [None] when it
    does, the [OSError] otherwise.  The working directory [[]] exists. *)
Definition parent_error (fs : FS) (p : Path) : option exn :=
  match Pathlib.split_last p with
  | None => None
  | Some ([], _) => None
  | Some (d, _) =>
      match lookup fs d with
      | Some Dir => None
      | Some (File _) => Some (NotADirectoryError p)
      | None => Some (FileNotFoundError p)
      end
  end.

(** [p.exists()], for a path below the working directory, as all paths of
    the program are. *)
Definition exists_ (p : Path) : Eff bool :=
  fun w => (Ok (match lookup (files w) p with Some _ => true | None => false end), w).

(** [p.is_dir()] *)
Definition is_dir (p : Path) : Eff bool :=
  fun w => (Ok (match lookup (files w) p with Some Dir => true | _ => false end), w).

(** [p.mkdir(exist_ok=True)] *)
Definition mkdir_exist_ok (p : Path) : Eff unit :=
  fun w =>
    match lookup (files w) p with
    | Some Dir => (Ok tt, w)
    | Some (File _) => (Raise (FileExistsError p), w)
    | None =>
        match parent_error (files w) p with
        | Some e => (Raise e, w)
        | None => (Ok tt, with_files (put p Dir (files w)) w)
        end
    end.

(** [with open(p, "wb") as f: f.write(data)] *)
Definition write_bytes (p : Path) (data : string) : Eff unit :=
  fun w =>
    match lookup (files w) p with
    | Some Dir => (Raise (IsADirectoryError p), w)
    | _ =>
        match parent_error (files w) p with
        | Some e => (Raise e, w)
        | None => (Ok tt, with_files (put p (File data) (files w)) w)
        end
    end.

(** [with open(p, "r", encoding="utf-8") as f: f.read()]: the bytes of the
    file are decoded as UTF-8, which raises when they are not well formed,
    and the line ends are translated.  The text that is returned is written
    in UTF-8 again. *)
Definition read_text (p : Path) : Eff string :=
  fun w =>
    match lookup (files w) p with
    | Some (File content) =>
        if PyStr.utf8_valid content
        then (Ok (PyStr.universal_newlines content), w)
        else (Raise UnicodeDecodeError, w)
    | Some Dir => (Raise (IsADirectoryError p), w)
    | None => (Raise (FileNotFoundError p), w)
    end.

(** [p.unlink()] *)
Definition unlink (p : Path) : Eff unit :=
  fun w =>
    match lookup (files w) p with
    | Some (File _) => (Ok tt, with_files (remove p (files w)) w)
    | Some Dir => (Raise (IsADirectoryError p), w)
    | None => (Raise (FileNotFoundError p), w)
    end.

(** [p.rmdir()] *)
Definition rmdir (p : Path) : Eff unit :=
  fun w =>
    match lookup (files w) p with
    | Some Dir =>
        match children (files w) p with
        | [] => (Ok tt, with_files (remove p (files w)) w)
        | _ :: _ => (Raise (DirectoryNotEmpty p), w)
        end
    | Some (File _) => (Raise (NotADirectoryError p), w)
    | None => (Raise (FileNotFoundError p), w)
    end.

(** [list(p.iterdir())] *)
Definition iterdir (p : Path) : Eff (list Path) :=
  fun w =>
    match lookup (files w) p with
    | Some Dir => (Ok (children (files w) p), w)
    | Some (File _) => (Raise (NotADirectoryError p), w)
    | None => (Raise (FileNotFoundError p), w)
    end.

(** The entries of [d] whose name matches [pat], in enumeration order;
    nothing when [d] is not a directory. *)
Definition glob_list (fs : FS) (d : Path) (pat : string) : list Path :=
  match lookup fs d with
  | Some Dir =>
      filter (fun q => PyStr.fnmatch pat (Pathlib.name q)) (children fs d)
  | _ => []
  end.

(** [list(d.glob(pat))] for a one-component pattern without bracket
    expression and without [**], as [*.md], [*.json], [*.html] and [*.csv]
    are: on such a pattern [glob] does not raise, and it looks at the entries
    of [d] only. *)
Definition glob (d : Path) (pat : string) : Eff (list Path) :=
  fun w => (Ok (glob_list (files w) d pat), w).

End Fs.

(** ** Streamlit: notices and the progress sink *)

Definition st_notice (n : Notice) : Eff unit :=
  fun w => (Ok tt, mk_world (files w) (progress w) (notices w ++ [n])).

Definition st_warning (msg : string) : Eff unit := st_notice (Warning msg).
Definition st_error (msg : string) : Eff unit := st_notice (Error msg).
Definition st_success (msg : string) : Eff unit := st_notice (Success msg).

(** [update_progress(value, text)] of [main]: the sink records the call and
    returns. *)
Definition update_progress (value : Q) (text : string) : Eff unit :=
  fun w => (Ok tt, mk_world (files w) (progress w ++ [(value, text)]) (notices w)).

(** ** The external engine *)

Record CompletedProcess := mk_completed {
  returncode : Z;
  stdout : string;
  stderr : string
}.

(** What [subprocess.run(cmd, capture_output=True, text=True, timeout=t)]
    does in a given file system: the process completes, or the call raises
    ([TimeoutExpired] after the time budget, an [OSError] when the command
    cannot be started); either way it may leave files behind. *)
Definition Engine : Type :=
  list string -> nat -> FS -> res CompletedProcess * FS.

Definition subprocess_run (engine : Engine) (cmd : list string) (timeout : nat)
  : Eff CompletedProcess :=
  fun w =>
    let (r, fs') := engine cmd timeout (files w) in (r, with_files fs' w).

(** ** [ensure_temp_dir] *)

Definition ensure_temp_dir : Eff unit := Fs.mkdir_exist_ok TEMP_DIR.

(** ** [cleanup_temp_files] *)

Definition cleanup_temp_files (temp_path : Path) : Eff unit :=
  try_except
    (e <- Fs.exists_ temp_path ;;
     if e then
       d <- Fs.is_dir temp_path ;;
       if d then
         entries <- Fs.iterdir temp_path ;;
         for_each entries Fs.unlink ;;
         Fs.rmdir temp_path
       else Fs.unlink temp_path
     else ret tt)
    (fun e => st_warning ("Failed to cleanup temp files: " ++ exn_str e)).

(** ** [save_uploaded_file]

    [uploaded_name] is [uploaded_file.name], [buffer] the bytes of
    [uploaded_file.getbuffer()], [now] the value of [datetime.now()]. *)

Definition save_uploaded_file (now : datetime) (uploaded_name buffer : string)
  : Eff (option Path) :=
  ensure_temp_dir ;;
  let timestamp := strftime_Ymd_HMS now in
  let file_path := TEMP_DIR // (timestamp ++ "_" ++ uploaded_name) in
  try_except
    (Fs.write_bytes file_path buffer ;;
     ret (Some file_path))
    (fun e =>
       st_error ("Failed to save file: " ++ exn_str e) ;;
       ret None).

(** ** [run_yomitoku] *)

(** [(success, output_file_path, output_dir, error_message)] *)
Definition Result : Type := bool * option Path * option Path * option string.

Definition output_dir_of (now : datetime) : Path :=
  TEMP_DIR // ("output_" ++ strftime_Ymd_HMS now).

Definition command (input_path : Path) (output_format : string)
           (output_dir : Path) : list string :=
  ["yomitoku"; Pathlib.str input_path; "-f"; output_format;
   "-o"; Pathlib.str output_dir; "--figure_letter"].

(** [progress_callback] is the truth value of the argument: [false] for the
    default [None], [true] for a sink such as [update_progress], which
    records the call and returns. *)
Definition run_yomitoku (engine : Engine) (now : datetime)
           (input_path : Path) (output_format : string)
           (progress_callback : bool) : Eff Result :=
  ensure_temp_dir ;;
  let output_dir := output_dir_of now in
  Fs.mkdir_exist_ok output_dir ;;
  let cmd := command input_path output_format output_dir in
  try_except
    (when progress_callback (update_progress (2 # 10) "Running yomitoku...") ;;
     result <- subprocess_run engine cmd 300 ;;
     when progress_callback (update_progress (8 # 10) "Processing results...") ;;
     if negb (returncode result =? 0)%Z then
       let error_msg := PyStr.or_else (stderr result) "Unknown error occurred" in
       ret (false, None, None, Some error_msg)
     else
       output_files <- Fs.glob output_dir ("*." ++ output_format) ;;
       match output_files with
       | [] => ret (false, None, None, Some "No output file generated")
       | first :: _ =>
           when progress_callback (update_progress 1 "Complete!") ;;
           ret (true, Some first, Some output_dir, None)
       end)
    (fun e =>
       match e with
       | TimeoutExpired =>
           ret (false, None, None, Some "Processing timeout (exceeded 5 minutes)")
       | _ => ret (false, None, None, Some ("Error: " ++ exn_str e)%string)
       end).

(** The five [return] statements of [run_yomitoku], in the vocabulary of the
    design document.  The tuple the function returns carries a message and
    no error kind: the kind of a result is the statement that returns it. *)
Inductive Exit :=
| EngineFailure (error_msg : string)              (* line 120 *)
| NoOutputProduced                                (* line 125 *)
| Succeeded (output_file output_dir : Path)       (* line 130 *)
| Timeout                                         (* line 133 *)
| Unexpected (e : exn).                           (* line 135 *)

(** The tuple each [return] statement builds. *)
Definition result_tuple (x : Exit) : Result :=
  match x with
  | EngineFailure error_msg => (false, None, None, Some error_msg)
  | NoOutputProduced => (false, None, None, Some "No output file generated")
  | Succeeded output_file output_dir =>
      (true, Some output_file, Some output_dir, None)
  | Timeout => (false, None, None, Some "Processing timeout (exceeded 5 minutes)")
  | Unexpected e => (false, None, None, Some ("Error: " ++ exn_str e))
  end%string.

(** [run_yomitoku] with each [return] replaced by its tag; the two agree
    ([run_yomitoku_tagged]). *)
Definition run_yomitoku_exit (engine : Engine) (now : datetime)
           (input_path : Path) (output_format : string)
           (progress_callback : bool) : Eff Exit :=
  ensure_temp_dir ;;
  let output_dir := output_dir_of now in
  Fs.mkdir_exist_ok output_dir ;;
  let cmd := command input_path output_format output_dir in
  try_except
    (when progress_callback (update_progress (2 # 10) "Running yomitoku...") ;;
     result <- subprocess_run engine cmd 300 ;;
     when progress_callback (update_progress (8 # 10) "Processing results...") ;;
     if negb (returncode result =? 0)%Z then
       let error_msg := PyStr.or_else (stderr result) "Unknown error occurred" in
       ret (EngineFailure error_msg)
     else
       output_files <- Fs.glob output_dir ("*." ++ output_format) ;;
       match output_files with
       | [] => ret NoOutputProduced
       | first :: _ =>
           when progress_callback (update_progress 1 "Complete!") ;;
           ret (Succeeded first output_dir)
       end)
    (fun e =>
       match e with
       | TimeoutExpired => ret Timeout
       | _ => ret (Unexpected e)
       end).

(** ** The click handler of [main] (lines 229 to 272) *)

Record Session := mk_session {
  processed_result : option string;
  input_image_path : option Path;
  original_filename : option string;
  output_format : string
}.

Definition newline : string := String (ascii_of_nat 10) "".

Definition set_processed_result (r : option string) (ss : Session) : Session :=
  mk_session r (input_image_path ss) (original_filename ss) (output_format ss).

(** [can_execute]: the button is disabled unless it holds. *)
Definition can_execute (ss : Session) (w : World) : bool :=
  match input_image_path ss with
  | None => false
  | Some p =>
      match Fs.lookup (files w) p with
      | Some _ => validate_file_format p
      | None => false
      end
  end.

(** The body of the handler.  The progress bar and the status text are made
    before the call (lines 237 and 238) and cleared after it (lines 271 and
    272); [update_progress] is the only thing that writes to them in
    between. *)
Definition main_execute (engine : Engine) (now : datetime) (ss : Session)
  : Eff Session :=
  match input_image_path ss with
  | None => ret ss
  | Some input =>
      r <- run_yomitoku engine now input (output_format ss) true ;;
      let '(success, output_file, output_dir, error_msg) := r in
      if success : bool then
        try_except
          (result_content <-
             match output_file with
             | Some f => Fs.read_text f
             | None => raise (TypeError "expected str, bytes or os.PathLike object, not NoneType")
             end ;;
           cleanup_temp_files input ;;
           match output_dir with
           | Some d => cleanup_temp_files d
           | None =>
               st_warning "Failed to cleanup temp files: 'NoneType' object has no attribute 'exists'"
           end ;;
           st_success "処理が完了しました！" ;;
           ret (set_processed_result (Some result_content) ss))
          (fun e =>
             st_error ("Failed to read result: " ++ exn_str e) ;;
             ret (set_processed_result None ss))
      else
        st_error ("処理に失敗しました。再度実行してください" ++ newline ++ newline ++
                  "Error: " ++
                  match error_msg with Some m => m | None => "None" end) ;;
        ret (set_processed_result None ss)
  end.

(** The handler as the button runs it. *)
Definition main_on_click (engine : Engine) (now : datetime) (ss : Session)
  : Eff Session :=
  fun w => if can_execute ss w then main_execute engine now ss w else (Ok ss, w).

(** ** [save_pasted_image]

    [encoded] is the PNG file [image.save(file_path)] writes for the pasted
    image. *)

Definition save_pasted_image (now : datetime) (encoded : string)
  : Eff (option Path) :=
  ensure_temp_dir ;;
  let timestamp := strftime_Ymd_HMS now in
  let file_path := TEMP_DIR // (timestamp ++ "_pasted.png") in
  try_except
    (Fs.write_bytes file_path encoded ;;
     ret (Some file_path))
    (fun e =>
       st_error ("Failed to save pasted image: " ++ exn_str e) ;;
       ret None).

(** ** [generate_download_filename] *)

Definition generate_download_filename (now : datetime)
           (original_name format_ext : string) : string :=
  let date_str := strftime_Ymd now in
  let name_without_ext := Pathlib.stem (Pathlib.parse_parts original_name) in
  (name_without_ext ++ "_" ++ date_str ++ "_ocr." ++ format_ext)%string.

(** ** The input handling of [main] (lines 187 to 201) *)

Record UploadedFile := mk_uploaded {
  uploaded_name : string;      (* uploaded_file.name *)
  uploaded_buffer : string     (* uploaded_file.getbuffer() *)
}.

(** [uploaded_file] is the value of the upload widget and [pasted] the
    [image_data] of the paste button, [None] when there is none. *)
Definition main_input (now : datetime) (uploaded_file : option UploadedFile)
           (pasted : option string) (ss : Session) : Eff Session :=
  current <-
    match uploaded_file with
    | Some u =>
        p <- save_uploaded_file now (uploaded_name u) (uploaded_buffer u) ;;
        ret (p, Some (uploaded_name u))
    | None =>
        match pasted with
        | Some image =>
            p <- save_pasted_image now image ;;
            ret (p, Some "pasted_image.png")
        | None => ret (None, None)
        end
    end ;;
  let '(current_image_path, current_filename) := current in
  match current_image_path with
  | Some p =>
      ret (mk_session (processed_result ss) (Some p) current_filename
                      (output_format ss))
  | None => ret ss
  end.

(** ** Vocabulary of the statements *)

(** The outcome of the engine in a call of [run_yomitoku] from the world
    [w]: the two directories are made, and the engine is started in the file
    system they leave.  [None] when a directory cannot be made, in which
    case the call raises before the engine is started. *)
Definition engine_invocation (engine : Engine) (now : datetime)
           (input_path : Path) (output_format : string) (w : World)
  : option (res CompletedProcess * FS) :=
  match ensure_temp_dir w with
  | (Ok _, w1) =>
      match Fs.mkdir_exist_ok (output_dir_of now) w1 with
      | (Ok _, w2) =>
          Some (engine (command input_path output_format (output_dir_of now))
                       300 (files w2))
      | (Raise _, _) => None
      end
  | (Raise _, _) => None
  end.

(** The exit and the progress calls that an engine outcome leads to; they
    state the case analysis of [run_yomitoku] in one equation
    ([run_yomitoku_exit_eq]). *)
Definition exit_of (now : datetime) (output_format : string)
           (r : res CompletedProcess) (fs : FS) : Exit :=
  match r with
  | Raise TimeoutExpired => Timeout
  | Raise e => Unexpected e
  | Ok cp =>
      if (returncode cp =? 0)%Z then
        match Fs.glob_list fs (output_dir_of now) ("*." ++ output_format) with
        | [] => NoOutputProduced
        | first :: _ => Succeeded first (output_dir_of now)
        end
      else EngineFailure (PyStr.or_else (stderr cp) "Unknown error occurred")
  end.

Definition emitted (progress_callback : bool) (x : Exit) : list (Q * string) :=
  if progress_callback then
    match x with
    | Succeeded _ _ =>
        [(2 # 10, "Running yomitoku..."); (8 # 10, "Processing results...");
         (1%Q, "Complete!")]
    | EngineFailure _ | NoOutputProduced =>
        [(2 # 10, "Running yomitoku..."); (8 # 10, "Processing results...")]
    | Timeout | Unexpected _ => [(2 # 10, "Running yomitoku...")]
    end
  else [].

Definition success (r : Result) : bool := fst (fst (fst r)).
Definition output_file (r : Result) : option Path := snd (fst (fst r)).
Definition output_dir (r : Result) : option Path := snd (fst r).
Definition error_message (r : Result) : option string := snd r.

(** A computation leaves a component of the world as it finds it. *)
Definition preserves {X A : Type} (proj : World -> X) (m : Eff A) : Prop :=
  forall w, proj (snd (m w)) = proj w.

(** The fractions of a trace, and a trace that ends at the fraction [q]. *)
Definition fractions (tr : list (Q * string)) : list Q := map fst tr.

Definition ends_at (tr : list (Q * string)) (q : Q) : Prop :=
  exists tr' v text, tr = tr' ++ [(v, text)] /\ (v == q)%Q.

(** Lexicographic order of paths: component by component, a component by
    its characters. *)
Fixpoint path_compare (p q : Path) : comparison :=
  match p, q with
  | [], [] => Eq
  | [], _ :: _ => Lt
  | _ :: _, [] => Gt
  | a :: p', b :: q' =>
      match String.compare a b with
      | Eq => path_compare p' q'
      | c => c
      end
  end.

Definition path_leb (p q : Path) : bool :=
  match path_compare p q with
  | Gt => false
  | _ => true
  end.

(** *** The statements of the design document that the program does not
    satisfy as they stand *)

(** The result file is the least match in lexicographic order. *)
Definition selects_lexicographic_minimum : Prop :=
  forall engine now input_path output_format progress_callback w cp fs f d,
    engine_invocation engine now input_path output_format w = Some (Ok cp, fs) ->
    fst (run_yomitoku_exit engine now input_path output_format progress_callback w)
      = Ok (Succeeded f d) ->
    forall g, In g (Fs.glob_list fs d ("*." ++ output_format)) ->
              path_leb f g = true.

(** A later upload never replaces the content of an earlier artifact. *)
Definition never_overwrites : Prop :=
  forall now1 now2 name1 name2 buffer1 buffer2 w p1 w1 r2 w2,
    save_uploaded_file now1 name1 buffer1 w = (Ok (Some p1), w1) ->
    save_uploaded_file now2 name2 buffer2 w1 = (r2, w2) ->
    Fs.lookup (files w2) p1 = Some (File buffer1).

(** One of the formats the program offers, the values of [OUTPUT_FORMATS]:
    [main] passes no other to [run_yomitoku]. *)
Definition offered_format (output_format : string) : Prop :=
  In output_format (map snd OUTPUT_FORMATS).

(** The no-output result is returned under one condition only: the engine
    has exited with status zero and no entry of the output directory
    matches. *)
Definition no_output_only_condition : Prop :=
  forall engine now input_path output_format progress_callback w,
    offered_format output_format ->
    (fst (run_yomitoku engine now input_path output_format progress_callback w)
       = Ok (false, None, None, Some "No output file generated") <->
     exists cp fs,
       engine_invocation engine now input_path output_format w
         = Some (Ok cp, fs) /\
       returncode cp = 0%Z /\
       Fs.glob_list fs (output_dir_of now) ("*." ++ output_format) = []).

(** *** Further vocabulary *)

(** No path is listed twice in the file system. *)
Definition well_formed (fs : FS) : Prop := NoDup (map fst fs).

(** The path holds a regular file. *)
Definition is_file (fs : FS) (p : Path) : Prop :=
  exists c, Fs.lookup fs p = Some (File c).

(** A computation only removes: what a path holds afterwards, it held
    before. *)
Definition only_removes {A : Type} (m : Eff A) : Prop :=
  forall w q n,
    Fs.lookup (files (snd (m w))) q = Some n -> Fs.lookup (files w) q = Some n.

(** ** Sample data *)

Module Sample.

Definition t0 : datetime := mk_datetime 2024 1 2 3 4 5.

Definition empty_world : World := mk_world [] [] [].

(** An engine that only exits, with the given status and error text. *)
Definition engine_exits (status : Z) (err : string) : Engine :=
  fun _ _ fs => (Ok (mk_completed status "" err), fs).

(** An engine that writes the given files, in this order, and exits 0. *)
Definition engine_writes (entries : list (Path * string)) : Engine :=
  fun _ _ fs =>
    (Ok (mk_completed 0 "" ""),
     fold_left (fun acc e => Fs.put (fst e) (File (snd e)) acc) entries fs).

(** An engine that does not exit within the time budget. *)
Definition engine_hangs : Engine := fun _ _ fs => (Raise TimeoutExpired, fs).

Definition input_pdf : Path := TEMP_DIR // "20240102_030400_doc.pdf".

(** The world after the upload of [doc.pdf]. *)
Definition uploaded_world : World :=
  mk_world [(TEMP_DIR, Dir); (input_pdf, File "%PDF")] [] [].

Definition session_csv : Session :=
  mk_session None (Some input_pdf) (Some "doc.pdf") "csv".

Definition two_markdown_files : list (Path * string) :=
  [(output_dir_of t0 ++ ["b.md"], "B"); (output_dir_of t0 ++ ["a.md"], "A")].

(** The world after a job that left two files in its output directory. *)
Definition finished_world : World :=
  mk_world [(TEMP_DIR, Dir); (input_pdf, File "%PDF");
            (output_dir_of t0, Dir);
            (output_dir_of t0 ++ ["b.md"], File "B");
            (output_dir_of t0 ++ ["a.md"], File "A")] [] [].

(** The same, with a directory of figures beside the two files. *)
Definition figures_world : World :=
  mk_world [(TEMP_DIR, Dir); (input_pdf, File "%PDF");
            (output_dir_of t0, Dir);
            (output_dir_of t0 ++ ["b.md"], File "B");
            (output_dir_of t0 ++ ["figures"], Dir);
            (output_dir_of t0 ++ ["a.md"], File "A")] [] [].

(** A result file of two lines, the first of them ended by a carriage
    return and a line feed, and the text a read in text mode gives for it. *)
Definition csv_bytes : string :=
  ("a,b" ++ String (ascii_of_nat 13) (String (ascii_of_nat 10) "1,2"))%string.

Definition csv_text : string :=
  ("a,b" ++ String (ascii_of_nat 10) "1,2")%string.

(** Two bytes that are no UTF-8: FF FE. *)
Definition undecodable_bytes : string :=
  String (ascii_of_nat 255) (String (ascii_of_nat 254) "").

End Sample.

(** ** The extension of a file name, as the design document uses the word

    [ext] is the extension of [n] when [n] is a non-empty stem, a dot and
    [ext], and [ext] is non-empty and has no dot of its own. *)
Definition has_extension (n ext : string) : Prop :=
  exists stem : string,
    n = (stem ++ "." ++ ext)%string /\ stem <> "" /\ ext <> "" /\
    PyStr.mem "." ext = false.

(** * Properties *)

(** Time stamps are kept folded: unfolding them divides in unary. *)
Arguments output_dir_of : simpl never.
Arguments command : simpl never.
Arguments strftime_Ymd_HMS : simpl never.

(** ** Strings *)

Section StringFacts.

Variable c : ascii.

Lemma string_length_app (s t : string) :
  String.length (s ++ t) = String.length s + String.length t.
Proof. induction s as [|a s IH]; simpl; [reflexivity | now rewrite IH]. Qed.

Lemma mem_app (s t : string) :
  PyStr.mem c (s ++ t) = PyStr.mem c s || PyStr.mem c t.
Proof.
  induction s as [|a s IH]; simpl; [reflexivity|].
  now rewrite IH, orb_assoc.
Qed.

Lemma rfind_none (s : string) :
  PyStr.rfind c s = None <-> PyStr.mem c s = false.
Proof.
  induction s as [|a s IH]; simpl; [tauto|].
  destruct (PyStr.rfind c s) as [i|].
  - split; [discriminate|].
    intros H. apply orb_false_elim in H. destruct H as [_ H].
    apply IH in H. discriminate.
  - destruct (Ascii.eqb a c); simpl; [split; discriminate|].
    split; intros _; [now apply IH | reflexivity].
Qed.

(** The index [rfind] returns is the position of the last [c]. *)
Lemma rfind_some (s : string) (i : nat) :
  PyStr.rfind c s = Some i ->
  s = (PyStr.take i s ++ String c (PyStr.skip (S i) s))%string /\
  String.length (PyStr.take i s) = i /\
  PyStr.skip i s = String c (PyStr.skip (S i) s) /\
  PyStr.mem c (PyStr.skip (S i) s) = false.
Proof.
  revert i. induction s as [|a s IH]; simpl; intros i H; [discriminate|].
  destruct (PyStr.rfind c s) as [j|] eqn:E.
  - injection H as <-. destruct (IH j eq_refl) as (H1 & H2 & H3 & H4).
    change (PyStr.take (S j) (String a s)) with (String a (PyStr.take j s)).
    change (PyStr.skip (S (S j)) (String a s)) with (PyStr.skip (S j) s).
    change (PyStr.skip (S j) (String a s)) with (PyStr.skip j s).
    repeat split; auto.
    + cbn [append]. f_equal. exact H1.
    + cbn [String.length]. now rewrite H2.
  - destruct (Ascii.eqb a c) eqn:Ea; [|discriminate].
    injection H as <-. apply Ascii.eqb_eq in Ea. subst a. simpl.
    repeat split. now apply rfind_none.
Qed.

Lemma rfind_app (s t : string) :
  PyStr.mem c t = false ->
  PyStr.rfind c (s ++ String c t) = Some (String.length s).
Proof.
  intros Ht. induction s as [|a s IH]; simpl.
  - apply rfind_none in Ht. rewrite Ht. now rewrite Ascii.eqb_refl.
  - now rewrite IH.
Qed.

Lemma skip_app (s t : string) : PyStr.skip (String.length s) (s ++ t) = t.
Proof. induction s as [|a s IH]; simpl; [now destruct t | exact IH]. Qed.

Lemma take_app (s t : string) : PyStr.take (String.length s) (s ++ t) = s.
Proof. induction s as [|a s IH]; simpl; [reflexivity | now rewrite IH]. Qed.

Lemma lstrip_no_mem (s : string) :
  PyStr.mem c s = false -> PyStr.lstrip c s = s.
Proof.
  destruct s as [|a s]; simpl; [reflexivity|].
  intros H. apply orb_false_elim in H. destruct H as [-> _]. reflexivity.
Qed.

End StringFacts.

Lemma lower_ascii_dot (a : ascii) :
  Ascii.eqb (PyStr.lower_ascii a) "." = Ascii.eqb a ".".
Proof. destruct a as [[] [] [] [] [] [] [] []]; reflexivity. Qed.

Lemma mem_dot_lower (s : string) :
  PyStr.mem "." (PyStr.lower s) = PyStr.mem "." s.
Proof.
  induction s as [|a s IH]; simpl; [reflexivity|].
  now rewrite lower_ascii_dot, IH.
Qed.

Lemma str_in_In (x : string) (l : list string) :
  str_in x l = true <-> In x l.
Proof.
  unfold str_in. rewrite existsb_exists. split.
  - intros (y & Hy & E). apply String.eqb_eq in E. now subst.
  - intros H. exists x. split; [exact H | apply String.eqb_refl].
Qed.

(** The suffix of a path is the dot and the extension of its name, when the
    name has one. *)
Lemma suffix_extension (p : Path) (ext : string) :
  has_extension (Pathlib.name p) ext ->
  Pathlib.suffix p = String "." ext.
Proof.
  intros (stem & Hn & Hs & He & Hd).
  unfold Pathlib.suffix. simpl. rewrite Hn. simpl.
  rewrite (rfind_app "." stem ext Hd).
  rewrite string_length_app. simpl.
  assert (0 < String.length stem) by (destruct stem; simpl; [congruence | lia]).
  assert (0 < String.length ext) by (destruct ext; simpl; [congruence | lia]).
  replace (0 <? String.length stem) with true by (symmetry; apply Nat.ltb_lt; lia).
  replace (String.length stem <? String.length stem + S (String.length ext) - 1)
    with true by (symmetry; apply Nat.ltb_lt; lia).
  simpl. apply (skip_app stem (String "." ext)).
Qed.

Lemma suffix_cases (p : Path) :
  Pathlib.suffix p = "" \/
  exists ext, has_extension (Pathlib.name p) ext /\ Pathlib.suffix p = String "." ext.
Proof.
  unfold Pathlib.suffix. simpl.
  destruct (PyStr.rfind "." (Pathlib.name p)) as [i|] eqn:E; [|now left].
  destruct ((0 <? i) && (i <? String.length (Pathlib.name p) - 1)) eqn:C; [|now left].
  right. apply andb_prop in C. destruct C as [C1 C2].
  apply Nat.ltb_lt in C1. apply Nat.ltb_lt in C2.
  destruct (rfind_some "." _ _ E) as (H1 & H2 & H3 & H4).
  exists (PyStr.skip (S i) (Pathlib.name p)). split; [|exact H3].
  exists (PyStr.take i (Pathlib.name p)). repeat split; auto.
  - intros Hz. rewrite Hz in H2. simpl in H2. lia.
  - intros Hz. rewrite H1 in C2. rewrite string_length_app, H2, Hz in C2. simpl in C2. lia.
Qed.

(** ** [validate_file_format] *)

Lemma normalised_suffix (ext : string) :
  PyStr.mem "." ext = false ->
  PyStr.lstrip "." (PyStr.lower (String "." ext)) = PyStr.lower ext.
Proof.
  intros Hd. cbn [PyStr.lower]. change (PyStr.lower_ascii ".") with "."%char.
  cbn [PyStr.lstrip]. rewrite Ascii.eqb_refl.
  apply lstrip_no_mem. now rewrite mem_dot_lower.
Qed.

(** C7. [validate_file_format] accepts a path exactly when the name of the
    path has an extension whose lowercase form is one of png, jpg, jpeg, pdf,
    tiff, bmp; a path with another extension, or with none, is refused. *)
Theorem validate_file_format_iff (file_path : Path) :
  validate_file_format file_path = true <->
  exists ext, has_extension (Pathlib.name file_path) ext /\
              In (PyStr.lower ext) SUPPORTED_FORMATS.
Proof.
  unfold validate_file_format. rewrite str_in_In. split.
  - intros H. destruct (suffix_cases file_path) as [E | (ext & Hx & E)].
    + rewrite E in H. simpl in H. intuition discriminate.
    + exists ext. split; [exact Hx|].
      destruct Hx as (stem & _ & _ & _ & Hd).
      now rewrite E, normalised_suffix in H.
  - intros (ext & Hx & Hin).
    rewrite (suffix_extension _ _ Hx).
    destruct Hx as (stem & _ & _ & _ & Hd).
    now rewrite normalised_suffix.
Qed.

Example validate_weird_xyz : validate_file_format ["weird.xyz"] = false.
Proof. reflexivity. Qed.

Example validate_upper_case : validate_file_format (TEMP_DIR // "scan.TIFF") = true.
Proof. reflexivity. Qed.

(** A hidden file has no extension: its only dot leads the name. *)
Example validate_hidden : validate_file_format [".png"] = false.
Proof. reflexivity. Qed.

(** ** The file system *)

Lemma path_eqb_spec (p q : Path) : reflect (p = q) (Pathlib.eqb p q).
Proof.
  revert q. induction p as [|a p IH]; intros [|b q]; simpl;
    try (constructor; congruence).
  destruct (String.eqb_spec a b) as [->|N]; simpl.
  - destruct (IH q) as [->|N]; constructor; congruence.
  - constructor; congruence.
Qed.

Lemma path_eqb_refl (p : Path) : Pathlib.eqb p p = true.
Proof. now destruct (path_eqb_spec p p). Qed.

Lemma path_eqb_neq (p q : Path) : p <> q -> Pathlib.eqb p q = false.
Proof. now destruct (path_eqb_spec p q). Qed.

Lemma lookup_remove (fs : FS) (p : Path) : Fs.lookup (Fs.remove p fs) p = None.
Proof.
  induction fs as [|[q n] fs IH]; simpl; [reflexivity|].
  destruct (Pathlib.eqb q p) eqn:E; simpl; [exact IH|].
  now rewrite E.
Qed.

Lemma lookup_put_same (fs : FS) (p : Path) (n : node) :
  Fs.lookup (Fs.put p n fs) p = Some n.
Proof.
  induction fs as [|[q m] fs IH]; simpl.
  - now rewrite path_eqb_refl.
  - destruct (Pathlib.eqb q p) eqn:E; simpl; now rewrite E.
Qed.

Lemma lookup_put_other (fs : FS) (p q : Path) (n : node) :
  p <> q -> Fs.lookup (Fs.put p n fs) q = Fs.lookup fs q.
Proof.
  intros N. induction fs as [|[r m] fs IH]; simpl.
  - now rewrite path_eqb_neq.
  - destruct (Pathlib.eqb r p) eqn:E; simpl.
    + destruct (path_eqb_spec r p) as [->|]; [|discriminate].
      now rewrite path_eqb_neq.
    + now rewrite IH.
Qed.

(** ** What [*.<format>] matches *)

Lemma fnmatch_star_eq (pat s : string) :
  PyStr.fnmatch (String "*" pat) s
  = PyStr.fnmatch pat s ||
    match s with
    | EmptyString => false
    | String _ s' => PyStr.fnmatch (String "*" pat) s'
    end.
Proof. destruct s; reflexivity. Qed.

(** A pattern without wildcard matches itself only. *)
Lemma fnmatch_literal (pat name : string) :
  PyStr.mem "*" pat = false -> PyStr.mem "?" pat = false ->
  PyStr.fnmatch pat name = String.eqb pat name.
Proof.
  revert name. induction pat as [|c pat IH]; intros name Hs Hq.
  - now destruct name.
  - cbn [PyStr.mem] in Hs, Hq.
    apply orb_false_elim in Hs. destruct Hs as [Hs1 Hs2].
    apply orb_false_elim in Hq. destruct Hq as [Hq1 Hq2].
    cbn [PyStr.fnmatch]. rewrite Hs1.
    destruct name as [|d name]; [reflexivity|].
    rewrite Hq1, (IH name Hs2 Hq2). reflexivity.
Qed.

(** A leading star matches any prefix. *)
Lemma fnmatch_star (pat name : string) :
  PyStr.fnmatch (String "*" pat) name = true <->
  exists pre suf, name = (pre ++ suf)%string /\ PyStr.fnmatch pat suf = true.
Proof.
  induction name as [|a name IH]; rewrite fnmatch_star_eq.
  - rewrite orb_false_r. split.
    + intros H. now exists "", "".
    + intros (pre & suf & E & H).
      destruct pre; [|discriminate]. cbn in E. now subst suf.
  - rewrite orb_true_iff, IH. split.
    + intros [H | (pre & suf & E & H)].
      * now exists "", (String a name).
      * exists (String a pre), suf. cbn. now rewrite E.
    + intros (pre & suf & E & H). destruct pre as [|b pre].
      * left. cbn in E. now subst suf.
      * right. cbn in E. injection E as -> ->. now exists pre, suf.
Qed.

(** For a format without wildcard, such as [md], [json], [html] and [csv],
    the pattern [*.<format>] matches the names that end with a dot and the
    format. *)
Lemma fnmatch_extension (output_format name : string) :
  PyStr.mem "*" output_format = false -> PyStr.mem "?" output_format = false ->
  PyStr.fnmatch ("*." ++ output_format) name = true <->
  exists stem, name = (stem ++ "." ++ output_format)%string.
Proof.
  intros Hs Hq. cbn [append]. rewrite fnmatch_star. split.
  - intros (pre & suf & E & H).
    rewrite fnmatch_literal in H by (cbn [PyStr.mem]; now rewrite ?Hs, ?Hq).
    apply String.eqb_eq in H. subst suf. now exists pre.
  - intros (stem & E). exists stem, (String "." output_format).
    split; [exact E|].
    rewrite fnmatch_literal by (cbn [PyStr.mem]; now rewrite ?Hs, ?Hq).
    apply String.eqb_refl.
Qed.

(** The matches of [glob] are the entries of the directory whose name ends
    with the extension of the format. *)
Lemma glob_list_matches (fs : FS) (d q : Path) (output_format : string) :
  PyStr.mem "*" output_format = false -> PyStr.mem "?" output_format = false ->
  In q (Fs.glob_list fs d ("*." ++ output_format)) <->
  Fs.lookup fs d = Some Dir /\ In q (Fs.children fs d) /\
  exists stem, Pathlib.name q = (stem ++ "." ++ output_format)%string.
Proof.
  intros Hs Hq. unfold Fs.glob_list.
  destruct (Fs.lookup fs d) as [[|]|].
  - split; [intros [] | intros (H & _); discriminate].
  - rewrite filter_In, (fnmatch_extension _ _ Hs Hq). tauto.
  - split; [intros [] | intros (H & _); discriminate].
Qed.

Example glob_names :
  map (PyStr.fnmatch "*.md") ["photo.md"; ".md"; "photo.mdx"; "photo.MD"; "md"]
  = [true; true; false; false; false].
Proof. reflexivity. Qed.

(** The formats the user can choose are free of wildcards, so
    [glob_list_matches] applies to each of them. *)
Lemma output_formats_literal :
  Forall (fun kv => PyStr.mem "*" (snd kv) = false /\
                    PyStr.mem "?" (snd kv) = false) OUTPUT_FORMATS.
Proof. repeat constructor. Qed.

(** ** Frame properties *)

Section Frame.

Context {X : Type} (proj : World -> X).

Lemma preserves_ret {A} (a : A) : preserves proj (ret a).
Proof. now intros w. Qed.

Lemma preserves_raise {A} (e : exn) : preserves proj (raise (A := A) e).
Proof. now intros w. Qed.

Lemma preserves_bind {A B} (m : Eff A) (k : A -> Eff B) :
  preserves proj m -> (forall a, preserves proj (k a)) ->
  preserves proj (bind m k).
Proof.
  intros Hm Hk w. unfold bind. specialize (Hm w).
  destruct (m w) as [[a|e] w1]; cbn [snd] in *; [|exact Hm].
  now rewrite Hk.
Qed.

Lemma preserves_try {A} (m : Eff A) (h : exn -> Eff A) :
  preserves proj m -> (forall e, preserves proj (h e)) ->
  preserves proj (try_except m h).
Proof.
  intros Hm Hh w. unfold try_except. specialize (Hm w).
  destruct (m w) as [[a|e] w1]; cbn [snd] in *; [exact Hm|].
  now rewrite Hh.
Qed.

Lemma preserves_when (b : bool) (m : Eff unit) :
  preserves proj m -> preserves proj (when b m).
Proof. destruct b; [trivial | intros _; apply preserves_ret]. Qed.

Lemma preserves_for_each {A} (l : list A) (body : A -> Eff unit) :
  (forall a, preserves proj (body a)) -> preserves proj (for_each l body).
Proof.
  intros Hb. induction l as [|a l IH]; simpl.
  - apply preserves_ret.
  - apply preserves_bind; [apply Hb | intros _; exact IH].
Qed.

End Frame.

Create HintDb frame.
#[local] Hint Resolve preserves_ret preserves_raise preserves_when
  preserves_for_each : frame.

(** The file-system operations touch only the files. *)
Section FsFrame.

Context {X : Type} (proj : World -> X).
Hypothesis proj_files : forall fs w, proj (with_files fs w) = proj w.

Lemma preserves_exists p : preserves proj (Fs.exists_ p).
Proof. now intros w. Qed.

Lemma preserves_is_dir p : preserves proj (Fs.is_dir p).
Proof. now intros w. Qed.

Lemma preserves_read_text p : preserves proj (Fs.read_text p).
Proof.
  intros w. unfold Fs.read_text.
  destruct (Fs.lookup (files w) p) as [[c|]|]; try reflexivity.
  now destruct (PyStr.utf8_valid c).
Qed.

Lemma preserves_iterdir p : preserves proj (Fs.iterdir p).
Proof.
  intros w. unfold Fs.iterdir.
  now destruct (Fs.lookup (files w) p) as [[|]|].
Qed.

Lemma preserves_unlink p : preserves proj (Fs.unlink p).
Proof.
  intros w. unfold Fs.unlink.
  destruct (Fs.lookup (files w) p) as [[|]|]; cbn [snd]; auto.
Qed.

Lemma preserves_rmdir p : preserves proj (Fs.rmdir p).
Proof.
  intros w. unfold Fs.rmdir.
  destruct (Fs.lookup (files w) p) as [[|]|]; cbn [snd]; auto.
  destruct (Fs.children (files w) p); cbn [snd]; auto.
Qed.

End FsFrame.

Lemma progress_with_files fs w : progress (with_files fs w) = progress w.
Proof. reflexivity. Qed.

Lemma notices_with_files fs w : notices (with_files fs w) = notices w.
Proof. reflexivity. Qed.

Lemma preserves_progress_notice n : preserves progress (st_notice n).
Proof. now intros w. Qed.

Lemma preserves_files_notice n : preserves files (st_notice n).
Proof. now intros w. Qed.

Lemma cleanup_preserves_progress p : preserves progress (cleanup_temp_files p).
Proof.
  unfold cleanup_temp_files.
  apply preserves_try; [|intros e; apply preserves_progress_notice].
  apply preserves_bind; [apply preserves_exists|]. intros [|]; [|auto with frame].
  apply preserves_bind; [apply preserves_is_dir|]. intros [|].
  - apply preserves_bind; [now apply preserves_iterdir|]. intros entries.
    apply preserves_bind; [|intros _; now apply preserves_rmdir].
    apply preserves_for_each. intros q. now apply preserves_unlink.
  - now apply preserves_unlink.
Qed.

(** ** [cleanup_temp_files] *)

Lemma cleanup_absent (temp_path : Path) (w : World) :
  Fs.lookup (files w) temp_path = None ->
  cleanup_temp_files temp_path w = (Ok tt, w).
Proof.
  intros H. unfold cleanup_temp_files, try_except, bind, Fs.exists_.
  now rewrite H.
Qed.

(** C9. Releasing a path that does not exist (any more) is a no-op: the call
    returns normally, and it leaves the file system, the progress sink and
    the notices as they were, so no warning is shown. *)
Theorem cleanup_temp_files_idempotent (temp_path : Path) (w : World) :
  Fs.lookup (files w) temp_path = None ->
  cleanup_temp_files temp_path w = (Ok tt, w).
Proof.
  intros Habsent.
  unfold cleanup_temp_files, try_except, bind.
  unfold Fs.exists_. rewrite Habsent. reflexivity.
Qed.

(** The input artifact is released twice: the second call changes nothing. *)
Lemma cleanup_temp_files_idempotent_witness :
  let w1 := snd (cleanup_temp_files Sample.input_pdf Sample.uploaded_world) in
  cleanup_temp_files Sample.input_pdf w1 = (Ok tt, w1).
Proof.
  intros w1.
  apply (cleanup_temp_files_idempotent Sample.input_pdf w1).
  reflexivity.
Defined.

(** ** Releasing twice *)

Lemma app_one_neq {A} (l : list A) (x : A) : l ++ [x] <> l.
Proof.
  intros E. apply (f_equal (@List.length A)) in E.
  rewrite List.length_app in E. simpl in E. lia.
Qed.

Lemma for_each_unlink_notices (l : list Path) :
  preserves notices (for_each l Fs.unlink).
Proof.
  apply preserves_for_each. intros q.
  apply preserves_unlink. exact notices_with_files.
Qed.

(** [cleanup_temp_files] on a regular file and on a directory. *)
Lemma cleanup_file (temp_path : Path) (w : World) (c : string) :
  Fs.lookup (files w) temp_path = Some (File c) ->
  cleanup_temp_files temp_path w
  = (Ok tt, with_files (Fs.remove temp_path (files w)) w).
Proof.
  intros E.
  unfold cleanup_temp_files, try_except, bind, Fs.exists_, Fs.is_dir, Fs.unlink.
  cbv beta. now rewrite !E.
Qed.

Lemma cleanup_dir (temp_path : Path) (w : World) :
  Fs.lookup (files w) temp_path = Some Dir ->
  cleanup_temp_files temp_path w
  = try_except
      (for_each (Fs.children (files w) temp_path) Fs.unlink ;;
       Fs.rmdir temp_path)
      (fun e => st_warning ("Failed to cleanup temp files: " ++ exn_str e)) w.
Proof.
  intros E.
  unfold cleanup_temp_files, try_except, bind, Fs.exists_, Fs.is_dir, Fs.iterdir.
  cbv beta. now rewrite !E.
Qed.

(** A release that shows no warning has removed the path. *)
Lemma cleanup_removes (temp_path : Path) (w : World) :
  notices (snd (cleanup_temp_files temp_path w)) = notices w ->
  Fs.lookup (files (snd (cleanup_temp_files temp_path w))) temp_path = None.
Proof.
  destruct (Fs.lookup (files w) temp_path) as [[c|]|] eqn:E.
  - rewrite (cleanup_file _ _ c E). intros _. apply lookup_remove.
  - rewrite (cleanup_dir _ _ E). unfold try_except, bind.
    pose proof (for_each_unlink_notices (Fs.children (files w) temp_path) w) as N.
    destruct (for_each (Fs.children (files w) temp_path) Fs.unlink w)
      as [[[]|e] w1]; cbn [snd] in N.
    + unfold Fs.rmdir.
      destruct (Fs.lookup (files w1) temp_path) as [[c|]|];
        cbn [snd st_warning st_notice notices]; rewrite ?N;
        try (intros H; now apply app_one_neq in H).
      destruct (Fs.children (files w1) temp_path);
        cbn [snd st_warning st_notice notices with_files files]; rewrite ?N.
      * intros _. apply lookup_remove.
      * intros H; now apply app_one_neq in H.
    + cbn [snd st_warning st_notice notices]. rewrite N.
      intros H; now apply app_one_neq in H.
  - rewrite (cleanup_absent _ _ E). intros _. exact E.
Qed.

(** Hence a second release right after a release that went through is a
    no-op. *)
Lemma cleanup_twice (temp_path : Path) (w : World) :
  let w1 := snd (cleanup_temp_files temp_path w) in
  notices w1 = notices w ->
  cleanup_temp_files temp_path w1 = (Ok tt, w1).
Proof.
  intros w1 H. apply cleanup_absent. now apply cleanup_removes.
Qed.

(** ** Time stamps *)

Lemma digit_mod (a b : nat) : digit a = digit b -> a mod 10 = b mod 10.
Proof.
  unfold digit. intros H. apply (f_equal nat_of_ascii) in H.
  pose proof (Nat.mod_upper_bound a 10). pose proof (Nat.mod_upper_bound b 10).
  rewrite !nat_ascii_embedding in H by lia. lia.
Qed.

Lemma digit_not_slash (n : nat) : Ascii.eqb (digit n) "/" = false.
Proof.
  unfold digit. pose proof (Nat.mod_upper_bound n 10 ltac:(lia)) as B.
  destruct (n mod 10) as [|k]; [reflexivity|].
  do 9 (destruct k as [|k]; [reflexivity|]). lia.
Qed.

(** A number below 100 is given by its two digits, one below 10000 by its
    four. *)
Lemma by_last_digit (a b : nat) :
  a / 10 = b / 10 -> a mod 10 = b mod 10 -> a = b.
Proof.
  intros Hq Hr. rewrite (Nat.div_mod_eq a 10), (Nat.div_mod_eq b 10).
  now rewrite Hq, Hr.
Qed.

Lemma two_digits (a b : nat) :
  a < 100 -> b < 100 ->
  (a / 10) mod 10 = (b / 10) mod 10 -> a mod 10 = b mod 10 -> a = b.
Proof.
  intros Ha Hb H1 H0. apply by_last_digit; [|exact H0].
  rewrite !Nat.mod_small in H1
    by (apply Nat.Div0.div_lt_upper_bound; exact Ha || exact Hb).
  exact H1.
Qed.

Lemma four_digits (a b : nat) :
  a < 100 * 100 -> b < 100 * 100 ->
  (a / 1000) mod 10 = (b / 1000) mod 10 ->
  (a / 100) mod 10 = (b / 100) mod 10 ->
  (a / 10) mod 10 = (b / 10) mod 10 ->
  a mod 10 = b mod 10 -> a = b.
Proof.
  intros Ha Hb H3 H2 H1 H0.
  apply by_last_digit; [|exact H0].
  apply by_last_digit; [|exact H1].
  rewrite !Nat.Div0.div_div. change (10 * 10) with 100.
  apply by_last_digit; [|exact H2].
  rewrite !Nat.Div0.div_div. change (100 * 10) with 1000.
  rewrite !Nat.mod_small in H3; [exact H3 | |].
  - apply Nat.Div0.div_lt_upper_bound.
    change (1000 * 10) with (100 * 100). exact Hb.
  - apply Nat.Div0.div_lt_upper_bound.
    change (1000 * 10) with (100 * 100). exact Ha.
Qed.

Lemma pad2_injective (a b : nat) : a < 100 -> b < 100 -> pad2 a = pad2 b -> a = b.
Proof.
  intros Ha Hb H. unfold pad2 in H. injection H as H1 H0.
  apply two_digits; auto using digit_mod.
Qed.

Lemma pad4_injective (a b : nat) :
  a < 100 * 100 -> b < 100 * 100 -> pad4 a = pad4 b -> a = b.
Proof.
  intros Ha Hb H. unfold pad4, pad2 in H. injection H as H3 H2 H1 H0.
  apply four_digits; auto using digit_mod.
Qed.

Lemma strftime_length (t : datetime) : String.length (strftime_Ymd_HMS t) = 15.
Proof. reflexivity. Qed.

Lemma strftime_no_slash (t : datetime) :
  PyStr.mem "/" (strftime_Ymd_HMS t) = false.
Proof.
  cbv [strftime_Ymd_HMS pad4 pad2 append PyStr.mem].
  rewrite !digit_not_slash. reflexivity.
Qed.

(** Two valid dates print alike only when they are the same second. *)
Lemma strftime_injective (t1 t2 : datetime) :
  valid_datetime t1 -> valid_datetime t2 ->
  strftime_Ymd_HMS t1 = strftime_Ymd_HMS t2 -> t1 = t2.
Proof.
  destruct t1 as [y1 m1 d1 h1 i1 s1], t2 as [y2 m2 d2 h2 i2 s2].
  unfold valid_datetime. cbn [year month day hour minute second].
  intros (Y1 & M1 & D1 & H1 & I1 & S1) (Y2 & M2 & D2 & H2 & I2 & S2) E.
  cbv [strftime_Ymd_HMS pad4 pad2 append year month day hour minute second] in E.
  injection E as e1 e2 e3 e4 e5 e6 e7 e8 e9 e10 e11 e12 e13 e14.
  f_equal.
  - apply four_digits; auto using digit_mod.
  - apply two_digits; auto using digit_mod.
  - apply two_digits; auto using digit_mod.
  - apply two_digits; auto using digit_mod.
  - apply two_digits; auto using digit_mod.
  - apply two_digits; auto using digit_mod.
Qed.

(** Calls at two different seconds print two different time stamps, so that
    [save_uploaded_file_keeps_earlier] applies to them whatever the names. *)
Lemma distinct_seconds (t1 t2 : datetime) :
  valid_datetime t1 -> valid_datetime t2 -> t1 <> t2 ->
  strftime_Ymd_HMS t1 <> strftime_Ymd_HMS t2.
Proof.
  intros V1 V2 N E. apply N. now apply strftime_injective.
Qed.

(** ** [save_uploaded_file] *)

Lemma split_no_separator (c : ascii) (s : string) :
  PyStr.mem c s = false -> PyStr.split c s = [s].
Proof.
  induction s as [|a s IH]; simpl; [reflexivity|].
  intros H. apply orb_false_elim in H. destruct H as [Ha Hs].
  now rewrite Ha, (IH Hs).
Qed.

Lemma long_component (s : string) :
  1 < String.length s ->
  negb (String.eqb s "") && negb (String.eqb s ".") = true.
Proof.
  destruct s as [|a [|b s]]; cbn [String.length]; try lia. intros _.
  assert (E1 : String.eqb (String a (String b s)) "" = false)
    by now apply String.eqb_neq.
  assert (E2 : String.eqb (String a (String b s)) "." = false)
    by now apply String.eqb_neq.
  now rewrite E1, E2.
Qed.

(** The destination of an upload whose name has no separator: one component
    below [TEMP_DIR], the time stamp, an underscore and the name. *)
Lemma stamped_path (now : datetime) (name : string) :
  PyStr.mem "/" name = false ->
  TEMP_DIR // (strftime_Ymd_HMS now ++ "_" ++ name)
  = TEMP_DIR ++ [(strftime_Ymd_HMS now ++ "_" ++ name)%string].
Proof.
  intros H. unfold Pathlib.div, Pathlib.parse_parts. f_equal.
  rewrite split_no_separator.
  - cbn [filter]. rewrite long_component; [reflexivity|].
    rewrite string_length_app, strftime_length. lia.
  - rewrite mem_app, strftime_no_slash. cbn. exact H.
Qed.

Lemma append_injective (s1 s2 t1 t2 : string) :
  String.length s1 = String.length s2 ->
  (s1 ++ t1 = s2 ++ t2)%string -> s1 = s2 /\ t1 = t2.
Proof.
  revert s2. induction s1 as [|a s1 IH]; intros [|b s2] L E;
    try discriminate; [now split|].
  cbn in E. injection E as -> E. injection L as L.
  destruct (IH _ L E) as [-> ->]. now split.
Qed.

(** Two destinations coincide only for the same printed second and the same
    name. *)
Lemma stamped_path_injective (now1 now2 : datetime) (name1 name2 : string) :
  PyStr.mem "/" name1 = false -> PyStr.mem "/" name2 = false ->
  TEMP_DIR // (strftime_Ymd_HMS now1 ++ "_" ++ name1)
  = TEMP_DIR // (strftime_Ymd_HMS now2 ++ "_" ++ name2) ->
  strftime_Ymd_HMS now1 = strftime_Ymd_HMS now2 /\ name1 = name2.
Proof.
  intros H1 H2. rewrite !stamped_path by assumption. intros E.
  apply app_inv_head in E. apply (f_equal (hd "")) in E. cbn [hd] in E.
  apply append_injective in E; [|now rewrite !strftime_length].
  destruct E as [Es En]. split; [exact Es|]. now injection En.
Qed.

Lemma write_bytes_ok (p : Path) (data : string) (w w' : World) :
  Fs.write_bytes p data w = (Ok tt, w') ->
  w' = with_files (Fs.put p (File data) (files w)) w.
Proof.
  unfold Fs.write_bytes. intros H.
  destruct (Fs.lookup (files w) p) as [[|]|];
    try discriminate;
    destruct (Fs.parent_error (files w) p); now inversion H.
Qed.

Lemma write_bytes_other (p q : Path) (data : string) (w : World) :
  p <> q ->
  Fs.lookup (files (snd (Fs.write_bytes p data w))) q = Fs.lookup (files w) q.
Proof.
  intros N. unfold Fs.write_bytes.
  destruct (Fs.lookup (files w) p) as [[|]|]; cbn [snd]; try reflexivity;
    destruct (Fs.parent_error (files w) p); cbn [snd with_files files];
    try reflexivity; now apply lookup_put_other.
Qed.

Lemma mkdir_other (p q : Path) (w : World) :
  p <> q ->
  Fs.lookup (files (snd (Fs.mkdir_exist_ok p w))) q = Fs.lookup (files w) q.
Proof.
  intros N. unfold Fs.mkdir_exist_ok.
  destruct (Fs.lookup (files w) p) as [[|]|]; cbn [snd]; try reflexivity.
  destruct (Fs.parent_error (files w) p); cbn [snd with_files files];
    try reflexivity; now apply lookup_put_other.
Qed.

(** An upload changes no path but its destination and [TEMP_DIR]. *)
Lemma save_uploaded_file_other now name buffer (q : Path) (w : World) :
  q <> TEMP_DIR ->
  q <> TEMP_DIR // (strftime_Ymd_HMS now ++ "_" ++ name) ->
  Fs.lookup (files (snd (save_uploaded_file now name buffer w))) q
  = Fs.lookup (files w) q.
Proof.
  intros N1 N2. unfold save_uploaded_file, ensure_temp_dir, bind, try_except.
  pose proof (mkdir_other TEMP_DIR q w (not_eq_sym N1)) as M.
  destruct (Fs.mkdir_exist_ok TEMP_DIR w) as [[[]|e] w1]; cbn [snd] in *;
    [|exact M].
  pose proof (write_bytes_other _ q buffer w1 (not_eq_sym N2)) as W.
  destruct (Fs.write_bytes (TEMP_DIR // (strftime_Ymd_HMS now ++ "_" ++ name))
                           buffer w1) as [[[]|e] w2]; cbn [snd] in *.
  - cbn [ret snd]. congruence.
  - cbn [ret snd st_error st_notice files]. congruence.
Qed.

(** A successful upload: the path it returns, and what the path holds. *)
Lemma save_uploaded_file_ok now name buffer (w w1 : World) (p : Path) :
  save_uploaded_file now name buffer w = (Ok (Some p), w1) ->
  p = TEMP_DIR // (strftime_Ymd_HMS now ++ "_" ++ name) /\
  Fs.lookup (files w1) p = Some (File buffer).
Proof.
  unfold save_uploaded_file, ensure_temp_dir, bind, try_except.
  destruct (Fs.mkdir_exist_ok TEMP_DIR w) as [[[]|e] w0]; [|discriminate].
  destruct (Fs.write_bytes (TEMP_DIR // (strftime_Ymd_HMS now ++ "_" ++ name))
                           buffer w0) as [[[]|e] w2] eqn:W.
  - cbn [ret]. intros H. injection H as <- <-. split; [reflexivity|].
    apply write_bytes_ok in W. subst w2. cbn [files with_files].
    apply lookup_put_same.
  - cbn. discriminate.
Qed.

(** C3, as the program has it. The destination of an upload is the time
    stamp of the call, an underscore and the original name, below
    [TEMP_DIR]; a later upload leaves the content of an earlier artifact as
    it is when the two calls differ in their printed second or in the
    name.  (The file is opened for writing without any check, so a second
    upload of the same name within the same second replaces the first.) *)
Theorem save_uploaded_file_keeps_earlier
        now1 now2 name1 name2 buffer1 buffer2 w p1 w1 r2 w2 :
  PyStr.mem "/" name1 = false -> PyStr.mem "/" name2 = false ->
  strftime_Ymd_HMS now1 <> strftime_Ymd_HMS now2 \/ name1 <> name2 ->
  save_uploaded_file now1 name1 buffer1 w = (Ok (Some p1), w1) ->
  save_uploaded_file now2 name2 buffer2 w1 = (r2, w2) ->
  p1 = TEMP_DIR ++ [(strftime_Ymd_HMS now1 ++ "_" ++ name1)%string] /\
  Fs.lookup (files w2) p1 = Some (File buffer1).
Proof.
  intros S1 S2 Hdiff H1 H2.
  destruct (save_uploaded_file_ok _ _ _ _ _ _ H1) as [Hp Hl].
  split; [now rewrite Hp, stamped_path|].
  replace w2 with (snd (save_uploaded_file now2 name2 buffer2 w1))
    by now rewrite H2.
  rewrite save_uploaded_file_other; [exact Hl | |].
  - rewrite Hp, stamped_path by assumption. discriminate.
  - rewrite Hp. intros E.
    apply stamped_path_injective in E; [|assumption|assumption].
    destruct E as [Es En]. destruct Hdiff; contradiction.
Qed.

(** Two uploads of [a.png], one second apart: the first artifact is kept. *)
Lemma save_uploaded_file_keeps_earlier_witness :
  Fs.lookup
    (files (snd (save_uploaded_file (mk_datetime 2024 1 2 3 4 6) "a.png" "second"
                   (snd (save_uploaded_file Sample.t0 "a.png" "first"
                                            Sample.empty_world)))))
    (TEMP_DIR ++ ["20240102_030405_a.png"])
  = Some (File "first").
Proof.
  refine (proj2 (save_uploaded_file_keeps_earlier
                   Sample.t0 (mk_datetime 2024 1 2 3 4 6) "a.png" "a.png"
                   "first" "second" Sample.empty_world
                   (TEMP_DIR ++ ["20240102_030405_a.png"])
                   (snd (save_uploaded_file Sample.t0 "a.png" "first"
                                            Sample.empty_world))
                   (fst (save_uploaded_file (mk_datetime 2024 1 2 3 4 6) "a.png" "second"
                   (snd (save_uploaded_file Sample.t0 "a.png" "first"
                                            Sample.empty_world))))
                   _
                   eq_refl eq_refl _ eq_refl eq_refl)).
  left. vm_compute. discriminate.
Defined.

(** C3, as stated, fails: two uploads of [a.png] within the same second go
    to the same path, and the second replaces the content of the first. *)
Lemma never_overwrites_fails : ~ never_overwrites.
Proof.
  intros H.
  specialize (H Sample.t0 Sample.t0 "a.png" "a.png" "first" "second"
                Sample.empty_world _ _ _ _ eq_refl eq_refl).
  vm_compute in H. discriminate H.
Qed.

(** ** [run_yomitoku] *)

(** Making a directory touches neither the progress sink nor the notices. *)
Lemma mkdir_exist_ok_frame (p : Path) (w w' : World) (r : res unit) :
  Fs.mkdir_exist_ok p w = (r, w') ->
  progress w' = progress w /\ notices w' = notices w.
Proof.
  unfold Fs.mkdir_exist_ok. intros H.
  destruct (Fs.lookup (files w) p) as [[|]|];
    [now inversion H | now inversion H |].
  destruct (Fs.parent_error (files w) p); now inversion H.
Qed.

(** The whole behaviour of [run_yomitoku] once the engine is reached: the
    exit is the one the engine's outcome leads to, the file system is the one
    the engine leaves, the sink has received the calls of that exit. *)
Lemma run_yomitoku_exit_eq engine now input_path output_format progress_callback
      w r fs :
  engine_invocation engine now input_path output_format w = Some (r, fs) ->
  run_yomitoku_exit engine now input_path output_format progress_callback w =
  (Ok (exit_of now output_format r fs),
   mk_world fs
            (progress w ++ emitted progress_callback (exit_of now output_format r fs))
            (notices w)).
Proof.
  unfold engine_invocation, run_yomitoku_exit, bind.
  destruct (ensure_temp_dir w) as [[[]|e1] w1] eqn:E1; [|discriminate].
  destruct (Fs.mkdir_exist_ok (output_dir_of now) w1) as [[[]|e2] w2] eqn:E2;
    [|discriminate].
  intros H. injection H as H.
  destruct (mkdir_exist_ok_frame _ _ _ _ E1) as [P1 N1].
  destruct (mkdir_exist_ok_frame _ _ _ _ E2) as [P2 N2].
  rewrite <- P1, <- P2, <- N1, <- N2.
  unfold try_except, bind, subprocess_run, when, Fs.glob, exit_of.
  destruct progress_callback; cbn [update_progress ret files progress notices];
    rewrite H; cbn [with_files files progress notices append].
  - destruct r as [cp|e].
    + destruct (returncode cp =? 0)%Z;
        cbn [negb update_progress ret files progress notices emitted with_files].
      * destruct (Fs.glob_list fs (output_dir_of now) _);
          cbn [update_progress ret files progress notices emitted];
          now rewrite <- ?app_assoc.
      * now rewrite <- app_assoc.
    + destruct e; reflexivity.
  - rewrite app_nil_r. destruct r as [cp|e].
    + destruct (returncode cp =? 0)%Z;
        cbn [negb update_progress ret files progress notices emitted with_files].
      * destruct (Fs.glob_list fs (output_dir_of now) _); reflexivity.
      * reflexivity.
    + destruct e; reflexivity.
Qed.

(** Before the engine is reached the call can only raise, and the sink has
    received nothing. *)
Lemma run_yomitoku_exit_raises engine now input_path output_format
      progress_callback w :
  engine_invocation engine now input_path output_format w = None ->
  exists e w',
    run_yomitoku_exit engine now input_path output_format progress_callback w
      = (Raise e, w') /\
    progress w' = progress w.
Proof.
  unfold engine_invocation, run_yomitoku_exit, bind.
  destruct (ensure_temp_dir w) as [[[]|e1] w1] eqn:E1.
  - destruct (Fs.mkdir_exist_ok (output_dir_of now) w1) as [[[]|e2] w2] eqn:E2;
      [discriminate|].
    intros _. exists e2, w2. split; [reflexivity|].
    destruct (mkdir_exist_ok_frame _ _ _ _ E1) as [P1 _].
    destruct (mkdir_exist_ok_frame _ _ _ _ E2) as [P2 _]. congruence.
  - intros _. exists e1, w1. split; [reflexivity|].
    now destruct (mkdir_exist_ok_frame _ _ _ _ E1).
Qed.

(** The tagged function returns the tag of the tuple [run_yomitoku]
    returns, in the same world. *)
Lemma run_yomitoku_tagged engine now input_path output_format progress_callback w :
  run_yomitoku engine now input_path output_format progress_callback w
  = (x <- run_yomitoku_exit engine now input_path output_format
                            progress_callback ;;
     ret (result_tuple x)) w.
Proof.
  unfold run_yomitoku, run_yomitoku_exit, bind.
  destruct (ensure_temp_dir w) as [[[]|e1] w1]; [|reflexivity].
  destruct (Fs.mkdir_exist_ok (output_dir_of now) w1) as [[[]|e2] w2];
    [|reflexivity].
  unfold try_except, bind, subprocess_run, when, Fs.glob.
  destruct progress_callback; cbn [update_progress ret files progress notices];
    destruct (engine (command input_path output_format (output_dir_of now))
                     300 (files w2)) as [[cp|e] fs];
    try (destruct e; reflexivity);
    destruct (returncode cp =? 0)%Z;
    cbn [negb update_progress ret files progress notices with_files];
    try reflexivity;
    destruct (Fs.glob_list fs (output_dir_of now) _); reflexivity.
Qed.

Lemma run_yomitoku_eq engine now input_path output_format progress_callback
      w r fs :
  engine_invocation engine now input_path output_format w = Some (r, fs) ->
  run_yomitoku engine now input_path output_format progress_callback w =
  (Ok (result_tuple (exit_of now output_format r fs)),
   mk_world fs
            (progress w ++ emitted progress_callback (exit_of now output_format r fs))
            (notices w)).
Proof.
  intros H. rewrite run_yomitoku_tagged. unfold bind.
  now rewrite (run_yomitoku_exit_eq _ _ _ _ _ _ _ _ H).
Qed.

(** A call that returns has reached the engine. *)
Lemma run_yomitoku_exit_returns engine now input_path output_format
      progress_callback w x w' :
  run_yomitoku_exit engine now input_path output_format progress_callback w
    = (Ok x, w') ->
  exists r fs,
    engine_invocation engine now input_path output_format w = Some (r, fs) /\
    x = exit_of now output_format r fs /\
    w' = mk_world fs (progress w ++ emitted progress_callback x) (notices w).
Proof.
  intros H.
  destruct (engine_invocation engine now input_path output_format w)
    as [[r fs]|] eqn:E.
  - rewrite (run_yomitoku_exit_eq _ _ _ _ progress_callback _ _ _ E) in H.
    injection H as <- <-. now exists r, fs.
  - destruct (run_yomitoku_exit_raises _ _ _ _ progress_callback _ E)
      as (e & w'' & H' & _).
    rewrite H' in H. discriminate.
Qed.

Lemma run_yomitoku_returns engine now input_path output_format
      progress_callback w t w' :
  run_yomitoku engine now input_path output_format progress_callback w
    = (Ok t, w') ->
  exists x,
    run_yomitoku_exit engine now input_path output_format progress_callback w
      = (Ok x, w') /\
    t = result_tuple x.
Proof.
  rewrite run_yomitoku_tagged. unfold bind, ret.
  destruct (run_yomitoku_exit engine now input_path output_format
                              progress_callback w) as [[x|e] w1];
    intros H; inversion H; subst. now exists x.
Qed.

Lemma or_else_cases (x y : string) :
  (x <> "" /\ PyStr.or_else x y = x) \/ (x = "" /\ PyStr.or_else x y = y).
Proof. destruct x; [right | left]; split; (reflexivity || discriminate). Qed.

(** C5. When the engine exits with a status other than zero,
    [run_yomitoku] takes the engine-failure exit and returns
    [(False, None, None, msg)], where [msg] is the captured standard error,
    or ["Unknown error occurred"] when nothing was captured. *)
Theorem run_yomitoku_engine_failure engine now input_path output_format
        progress_callback w cp fs :
  engine_invocation engine now input_path output_format w = Some (Ok cp, fs) ->
  returncode cp <> 0%Z ->
  exists msg,
    ((stderr cp <> "" /\ msg = stderr cp) \/
     (stderr cp = "" /\ msg = "Unknown error occurred")) /\
    fst (run_yomitoku_exit engine now input_path output_format progress_callback w)
      = Ok (EngineFailure msg) /\
    fst (run_yomitoku engine now input_path output_format progress_callback w)
      = Ok (false, None, None, Some msg).
Proof.
  intros Hinv Hrc.
  exists (PyStr.or_else (stderr cp) "Unknown error occurred").
  split; [apply or_else_cases|].
  rewrite (run_yomitoku_exit_eq _ _ _ _ progress_callback _ _ _ Hinv).
  rewrite (run_yomitoku_eq _ _ _ _ progress_callback _ _ _ Hinv).
  cbn [fst exit_of]. apply Z.eqb_neq in Hrc. rewrite Hrc. split; reflexivity.
Qed.

(** The scenario of the design document: [doc.pdf], format [csv], the engine
    exits 1 with ["parse error"] on its standard error. *)
Lemma run_yomitoku_engine_failure_witness :
  fst (run_yomitoku (Sample.engine_exits 1 "parse error") Sample.t0
                    Sample.input_pdf "csv" true Sample.uploaded_world)
  = Ok (false, None, None, Some "parse error").
Proof.
  destruct (run_yomitoku_engine_failure
              (Sample.engine_exits 1 "parse error") Sample.t0 Sample.input_pdf
              "csv" true Sample.uploaded_world
              (mk_completed 1 "" "parse error")
              [(TEMP_DIR, Dir); (Sample.input_pdf, File "%PDF");
               (output_dir_of Sample.t0, Dir)])
    as (msg & [[_ E]|[E _]] & _ & H).
  - reflexivity.
  - discriminate.
  - rewrite E in H. exact H.
  - discriminate E.
Defined.

(** C6, as the program has it. The tuple of [run_yomitoku] carries a
    message and no error kind. For a format the program offers, the call
    returns [(False, None, None, "No output file generated")], and not
    success, whenever the engine exits with status zero and no entry of the
    output directory matches [*.<format>]; it returns this tuple in one
    other case only, when the engine exits with another status and its
    standard error is this very text. *)
Theorem run_yomitoku_no_output engine now input_path output_format
        progress_callback w :
  offered_format output_format ->
  (fst (run_yomitoku engine now input_path output_format progress_callback w)
     = Ok (false, None, None, Some "No output file generated") <->
   exists cp fs,
     engine_invocation engine now input_path output_format w = Some (Ok cp, fs) /\
     ((returncode cp = 0%Z /\
       Fs.glob_list fs (output_dir_of now) ("*." ++ output_format) = []) \/
      (returncode cp <> 0%Z /\ stderr cp = "No output file generated"))).
Proof.
  intros _. split.
  - intros H.
    destruct (run_yomitoku engine now input_path output_format
                           progress_callback w) as [[t|e] w'] eqn:E;
      [|discriminate].
    cbn [fst] in H. injection H as ->.
    destruct (run_yomitoku_returns _ _ _ _ _ _ _ _ E) as (x & Hx & Ht).
    destruct (run_yomitoku_exit_returns _ _ _ _ _ _ _ _ Hx)
      as (r & fs & Hi & Hex & _).
    subst x. unfold exit_of in Ht. destruct r as [cp|ex].
    + exists cp, fs. split; [exact Hi|].
      destruct (returncode cp =? 0)%Z eqn:Hrc.
      * left. apply Z.eqb_eq in Hrc. split; [exact Hrc|].
        destruct (Fs.glob_list fs (output_dir_of now) ("*." ++ output_format));
          [reflexivity | discriminate].
      * right. apply Z.eqb_neq in Hrc. split; [exact Hrc|].
        cbn [result_tuple] in Ht. injection Ht as Ht.
        destruct (or_else_cases (stderr cp) "Unknown error occurred")
          as [[_ Ho]|[_ Ho]]; rewrite Ho in Ht; [now symmetry | discriminate].
    + destruct ex; cbn in Ht; discriminate.
  - intros (cp & fs & Hi & [[Hrc Hg]|[Hrc Herr]]);
      rewrite (run_yomitoku_eq _ _ _ _ progress_callback _ _ _ Hi);
      cbn [fst exit_of].
    + apply Z.eqb_eq in Hrc. now rewrite Hrc, Hg.
    + apply Z.eqb_neq in Hrc. now rewrite Hrc, Herr.
Qed.

(** The engine exits 0 on [doc.pdf] and leaves nothing. *)
Lemma run_yomitoku_no_output_witness :
  fst (run_yomitoku (Sample.engine_exits 0 "") Sample.t0
                    Sample.input_pdf "csv" true Sample.uploaded_world)
  = Ok (false, None, None, Some "No output file generated").
Proof.
  apply (proj2 (run_yomitoku_no_output (Sample.engine_exits 0 "") Sample.t0
                  Sample.input_pdf "csv" true Sample.uploaded_world
                  ltac:(cbn; tauto))).
  exists (mk_completed 0 "" ""),
         [(TEMP_DIR, Dir); (Sample.input_pdf, File "%PDF");
          (output_dir_of Sample.t0, Dir)].
  split; [reflexivity|]. left. split; reflexivity.
Defined.

(** C6, as stated, fails: the engine exits 1 and writes
    ["No output file generated"] to its standard error; [run_yomitoku]
    returns the tuple of the no-output case, although the engine has not
    exited with status zero. *)
Lemma no_output_only_condition_fails : ~ no_output_only_condition.
Proof.
  intros H.
  destruct (proj1 (H (Sample.engine_exits 1 "No output file generated")
                     Sample.t0 Sample.input_pdf "csv" true
                     Sample.uploaded_world ltac:(cbn; tauto)) eq_refl)
    as (cp & fs & Hi & Hrc & _).
  vm_compute in Hi. injection Hi as <- _. discriminate Hrc.
Qed.

(** C10. The tuple [run_yomitoku] returns has one of two shapes: success
    with both paths and no message, or failure with no path and a message;
    in particular it reports success exactly when it carries no message. *)
Theorem run_yomitoku_result_shape engine now input_path output_format
        progress_callback w r w' :
  run_yomitoku engine now input_path output_format progress_callback w
    = (Ok r, w') ->
  ((success r = true /\ output_file r <> None /\ output_dir r <> None /\
    error_message r = None) \/
   (success r = false /\ output_file r = None /\ output_dir r = None /\
    error_message r <> None)) /\
  (success r = true <-> error_message r = None).
Proof.
  intros H. destruct (run_yomitoku_returns _ _ _ _ _ _ _ _ H) as (x & _ & ->).
  destruct x; cbn; split;
    try (left; repeat split; congruence);
    try (right; repeat split; congruence);
    split; congruence.
Qed.

Lemma run_yomitoku_result_shape_witness :
  success (false, None, None, Some "parse error") = true <->
  error_message (false, None, None, Some "parse error") = None.
Proof.
  exact (proj2 (run_yomitoku_result_shape
                  (Sample.engine_exits 1 "parse error") Sample.t0
                  Sample.input_pdf "csv" true Sample.uploaded_world
                  (false, None, None, Some "parse error")
                  (mk_world [(TEMP_DIR, Dir); (Sample.input_pdf, File "%PDF");
                             (output_dir_of Sample.t0, Dir)]
                            [((2 # 10)%Q, "Running yomitoku...");
                             ((8 # 10)%Q, "Processing results...")] [])
                  eq_refl)).
Defined.

(** A call that reaches the engine returns a tuple: [run_yomitoku] raises
    only when one of its two directories cannot be made. *)
Lemma run_yomitoku_total engine now input_path output_format progress_callback w :
  engine_invocation engine now input_path output_format w <> None ->
  exists r w',
    run_yomitoku engine now input_path output_format progress_callback w
      = (Ok r, w').
Proof.
  destruct (engine_invocation engine now input_path output_format w)
    as [[r fs]|] eqn:E; [intros _|congruence].
  rewrite (run_yomitoku_eq _ _ _ _ progress_callback _ _ _ E). eauto.
Qed.

(** The engine's time budget is exceeded: the timeout exit, with its
    message. *)
Lemma run_yomitoku_timeout engine now input_path output_format
      progress_callback w fs :
  engine_invocation engine now input_path output_format w
    = Some (Raise TimeoutExpired, fs) ->
  fst (run_yomitoku engine now input_path output_format progress_callback w)
    = Ok (false, None, None, Some "Processing timeout (exceeded 5 minutes)").
Proof.
  intros H. now rewrite (run_yomitoku_eq _ _ _ _ progress_callback _ _ _ H).
Qed.

(** ** The result file among several matches *)

(** C2, as the program has it. When the engine exits with status zero and
    entries of the output directory match [*.<format>], [run_yomitoku]
    returns the first of them in the order in which the directory is
    enumerated, however many there are; the matches are not sorted. *)
Theorem run_yomitoku_selects_first engine now input_path output_format
        progress_callback w cp fs first rest :
  engine_invocation engine now input_path output_format w = Some (Ok cp, fs) ->
  returncode cp = 0%Z ->
  Fs.glob_list fs (output_dir_of now) ("*." ++ output_format) = first :: rest ->
  fst (run_yomitoku_exit engine now input_path output_format progress_callback w)
    = Ok (Succeeded first (output_dir_of now)) /\
  fst (run_yomitoku engine now input_path output_format progress_callback w)
    = Ok (true, Some first, Some (output_dir_of now), None).
Proof.
  intros Hi Hrc Hg.
  rewrite (run_yomitoku_exit_eq _ _ _ _ progress_callback _ _ _ Hi).
  rewrite (run_yomitoku_eq _ _ _ _ progress_callback _ _ _ Hi).
  cbn [fst exit_of]. apply Z.eqb_eq in Hrc. now rewrite Hrc, Hg.
Qed.

(** The engine leaves [b.md] and then [a.md]: the call returns [b.md]. *)
Lemma run_yomitoku_selects_first_witness :
  fst (run_yomitoku (Sample.engine_writes Sample.two_markdown_files) Sample.t0
                    Sample.input_pdf "md" true Sample.uploaded_world)
  = Ok (true, Some (output_dir_of Sample.t0 ++ ["b.md"]),
        Some (output_dir_of Sample.t0), None).
Proof.
  apply (run_yomitoku_selects_first
           (Sample.engine_writes Sample.two_markdown_files) Sample.t0
           Sample.input_pdf "md" true Sample.uploaded_world
           (mk_completed 0 "" "")
           [(TEMP_DIR, Dir); (Sample.input_pdf, File "%PDF");
            (output_dir_of Sample.t0, Dir);
            (output_dir_of Sample.t0 ++ ["b.md"], File "B");
            (output_dir_of Sample.t0 ++ ["a.md"], File "A")]
           (output_dir_of Sample.t0 ++ ["b.md"])
           [output_dir_of Sample.t0 ++ ["a.md"]]);
    reflexivity.
Defined.

(** C2, as stated, fails: with [b.md] enumerated before [a.md] the result
    file is [b.md], which is not the least match. *)
Lemma selects_lexicographic_minimum_fails : ~ selects_lexicographic_minimum.
Proof.
  intros H.
  specialize (H (Sample.engine_writes Sample.two_markdown_files) Sample.t0
                Sample.input_pdf "md" true Sample.uploaded_world
                (mk_completed 0 "" "")
                [(TEMP_DIR, Dir); (Sample.input_pdf, File "%PDF");
                 (output_dir_of Sample.t0, Dir);
                 (output_dir_of Sample.t0 ++ ["b.md"], File "B");
                 (output_dir_of Sample.t0 ++ ["a.md"], File "A")]
                (output_dir_of Sample.t0 ++ ["b.md"])
                (output_dir_of Sample.t0)
                eq_refl eq_refl
                (output_dir_of Sample.t0 ++ ["a.md"])).
  assert (Hin : In (output_dir_of Sample.t0 ++ ["a.md"])
                   (Fs.glob_list
                      [(TEMP_DIR, Dir); (Sample.input_pdf, File "%PDF");
                       (output_dir_of Sample.t0, Dir);
                       (output_dir_of Sample.t0 ++ ["b.md"], File "B");
                       (output_dir_of Sample.t0 ++ ["a.md"], File "A")]
                      (output_dir_of Sample.t0) "*.md")).
  { vm_compute. right. left. reflexivity. }
  apply H in Hin. vm_compute in Hin. discriminate.
Qed.

Lemma string_compare_refl (s : string) : String.compare s s = Eq.
Proof.
  induction s as [|a s IH]; simpl; [reflexivity|].
  unfold Ascii.compare. now rewrite N.compare_refl.
Qed.

Lemma path_compare_refl (p : Path) : path_compare p p = Eq.
Proof.
  induction p as [|a p IH]; simpl; [reflexivity|].
  now rewrite string_compare_refl.
Qed.

(** With a single match the result file is that match, which is then also
    the least one. *)
Lemma single_match_is_minimum (fs : FS) (d : Path) (pat : string) (f : Path) :
  Fs.glob_list fs d pat = [f] ->
  forall g, In g (Fs.glob_list fs d pat) -> path_leb f g = true.
Proof.
  intros -> g [<-|[]]. unfold path_leb. now rewrite path_compare_refl.
Qed.

(** ** Progress *)

Lemma ends_at_last (tr : list (Q * string)) (v q : Q) (text : string) :
  ends_at (tr ++ [(v, text)]) q -> (v == q)%Q.
Proof.
  intros (tr' & v' & text' & E & H).
  apply app_inj_tail in E. destruct E as [_ E]. now injection E as -> _.
Qed.

Lemma ends_at_nil (q : Q) : ~ ends_at [] q.
Proof. intros (tr' & v & text & E & _). now destruct tr'. Qed.

(** What the sink receives on each exit. *)
Lemma emitted_sorted (x : Exit) : StronglySorted Qlt (fractions (emitted true x)).
Proof.
  destruct x; cbn; repeat constructor; reflexivity.
Qed.

Lemma emitted_ends_at_one (x : Exit) :
  ends_at (emitted true x) 1 <-> success (result_tuple x) = true.
Proof.
  destruct x; cbn [emitted result_tuple success fst]; split;
    try discriminate; try reflexivity.
  - intros H.
    apply (ends_at_last [((2 # 10)%Q, "Running yomitoku...")]) in H.
    discriminate H.
  - intros H.
    apply (ends_at_last [((2 # 10)%Q, "Running yomitoku...")]) in H.
    discriminate H.
  - intros _.
    exists [((2 # 10)%Q, "Running yomitoku..."); ((8 # 10)%Q, "Processing results...")],
           1%Q, "Complete!".
    split; reflexivity.
  - intros H. apply (ends_at_last []) in H. discriminate H.
  - intros H. apply (ends_at_last []) in H. discriminate H.
Qed.

(** After [run_yomitoku] has returned, the handler of [main] does not call
    the callback again. *)
Lemma main_execute_after_run engine now ss input w r w' :
  input_image_path ss = Some input ->
  run_yomitoku engine now input (output_format ss) true w = (Ok r, w') ->
  progress (snd (main_execute engine now ss w)) = progress w'.
Proof.
  intros Hin Hrun. unfold main_execute. rewrite Hin.
  unfold bind at 1. rewrite Hrun.
  destruct r as [[[s f] d] e].
  set (rest := if s then _ else _).
  assert (P : preserves progress rest); [|apply P].
  subst rest. destruct s.
  - apply preserves_try.
    + apply preserves_bind.
      * destruct f; [now apply preserves_read_text | apply preserves_raise].
      * intros content.
        apply preserves_bind; [apply cleanup_preserves_progress|]. intros _.
        apply preserves_bind.
        { destruct d; [apply cleanup_preserves_progress
                      | apply preserves_progress_notice]. }
        intros _. apply preserves_bind; [apply preserves_progress_notice|].
        intros _. apply preserves_ret.
    + intros e0. apply preserves_bind; [apply preserves_progress_notice|].
      intros _. apply preserves_ret.
  - apply preserves_bind; [apply preserves_progress_notice|].
    intros _. apply preserves_ret.
Qed.

Lemma emitted_values (x : Exit) :
  fractions (emitted true x) = [(2 # 10)%Q] \/
  fractions (emitted true x) = [(2 # 10)%Q; (8 # 10)%Q] \/
  fractions (emitted true x) = [(2 # 10)%Q; (8 # 10)%Q; 1%Q].
Proof. destruct x; cbn; tauto. Qed.

(** C8. For every job, that is, every call of [run_yomitoku] with a progress
    callback, as [main] makes it: the fractions the callback receives during
    the call increase strictly, they are 0.2, then 0.8, then 1.0, as far as
    the call gets, the last of them is 1.0 exactly when the call reports
    success, and the handler of [main] does not call the callback again once
    [run_yomitoku] has returned. *)
Theorem run_yomitoku_progress engine now ss input w r w' :
  input_image_path ss = Some input ->
  run_yomitoku engine now input (output_format ss) true w = (Ok r, w') ->
  (exists tr,
      progress w' = progress w ++ tr /\
      StronglySorted Qlt (fractions tr) /\
      (ends_at tr 1 <-> success r = true) /\
      (fractions tr = [(2 # 10)%Q] \/
       fractions tr = [(2 # 10)%Q; (8 # 10)%Q] \/
       fractions tr = [(2 # 10)%Q; (8 # 10)%Q; 1%Q])) /\
  progress (snd (main_execute engine now ss w)) = progress w'.
Proof.
  intros Hin Hrun. split; [|now apply (main_execute_after_run _ _ _ input _ r)].
  destruct (run_yomitoku_returns _ _ _ _ _ _ _ _ Hrun) as (x & Hx & ->).
  destruct (run_yomitoku_exit_returns _ _ _ _ _ _ _ _ Hx) as (o & fs & _ & _ & ->).
  exists (emitted true x). cbn [progress].
  split; [reflexivity|]. split; [apply emitted_sorted|].
  split; [apply emitted_ends_at_one | apply emitted_values].
Qed.

(** The engine fails on [doc.pdf]: the sink has received 0.2 and 0.8 when
    the handler is done. *)
Lemma run_yomitoku_progress_witness :
  progress (snd (main_execute (Sample.engine_exits 1 "parse error") Sample.t0
                              Sample.session_csv Sample.uploaded_world))
  = [((2 # 10)%Q, "Running yomitoku..."); ((8 # 10)%Q, "Processing results...")].
Proof.
  exact (proj2 (run_yomitoku_progress
                  (Sample.engine_exits 1 "parse error") Sample.t0
                  Sample.session_csv Sample.input_pdf Sample.uploaded_world
                  (false, None, None, Some "parse error")
                  (mk_world [(TEMP_DIR, Dir); (Sample.input_pdf, File "%PDF");
                             (output_dir_of Sample.t0, Dir)]
                            [((2 # 10)%Q, "Running yomitoku...");
                             ((8 # 10)%Q, "Processing results...")] [])
                  eq_refl eq_refl)).
Defined.

(** A call without a callback, which [main] does not make, emits nothing. *)
Lemma run_yomitoku_without_callback engine now input_path output_format w r fs :
  engine_invocation engine now input_path output_format w = Some (r, fs) ->
  progress (snd (run_yomitoku engine now input_path output_format false w))
  = progress w.
Proof.
  intros H. rewrite (run_yomitoku_eq _ _ _ _ false _ _ _ H).
  cbn [snd progress emitted]. apply app_nil_r.
Qed.

(** ** What the handler of [main] leaves behind *)

(** The output directory exists when the engine is started. *)
Lemma output_dir_allocated (p : Path) (w w' : World) :
  Fs.mkdir_exist_ok p w = (Ok tt, w') -> Fs.lookup (files w') p = Some Dir.
Proof.
  unfold Fs.mkdir_exist_ok.
  destruct (Fs.lookup (files w) p) as [[|]|] eqn:E; try discriminate.
  - intros H. injection H as <-. exact E.
  - destruct (Fs.parent_error (files w) p); [discriminate|].
    intros H. injection H as <-. apply lookup_put_same.
Qed.

(** On every failure exit the tuple names no output directory, and the
    handler leaves the file system as [run_yomitoku] left it: neither the
    input artifact nor the output directory is released. *)
Lemma main_execute_failure engine now ss input w r w' :
  input_image_path ss = Some input ->
  run_yomitoku engine now input (output_format ss) true w = (Ok r, w') ->
  success r = false ->
  output_dir r = None /\
  files (snd (main_execute engine now ss w)) = files w'.
Proof.
  intros Hin Hrun Hs. split.
  - destruct (run_yomitoku_returns _ _ _ _ _ _ _ _ Hrun) as (x & _ & ->).
    destruct x; (reflexivity || discriminate).
  - unfold main_execute. rewrite Hin. unfold bind at 1. rewrite Hrun.
    destruct r as [[[s f] d] e]. cbn in Hs. subst s. reflexivity.
Qed.

(** C1 fails on the failure exits. The engine exits 1 on [doc.pdf]:
    [run_yomitoku] returns [(False, None, None, "parse error")], so the
    output directory it has made is not part of the result, and when the
    handler of [main] is done the directory and the input artifact are both
    still there. *)
Theorem output_dir_leaked_on_failure :
  fst (run_yomitoku (Sample.engine_exits 1 "parse error") Sample.t0
                    Sample.input_pdf "csv" true Sample.uploaded_world)
    = Ok (false, None, None, Some "parse error") /\
  Fs.lookup
    (files (snd (main_on_click (Sample.engine_exits 1 "parse error") Sample.t0
                               Sample.session_csv Sample.uploaded_world)))
    (output_dir_of Sample.t0) = Some Dir /\
  Fs.lookup
    (files (snd (main_on_click (Sample.engine_exits 1 "parse error") Sample.t0
                               Sample.session_csv Sample.uploaded_world)))
    Sample.input_pdf = Some (File "%PDF").
Proof. repeat split; vm_compute; reflexivity. Qed.

(** The same on the other failure exits: a timeout and an engine that leaves
    no file. *)
Example output_dir_leaked_on_timeout :
  fst (run_yomitoku Sample.engine_hangs Sample.t0 Sample.input_pdf "csv" true
                    Sample.uploaded_world)
    = Ok (false, None, None, Some "Processing timeout (exceeded 5 minutes)") /\
  Fs.lookup
    (files (snd (main_on_click Sample.engine_hangs Sample.t0
                               Sample.session_csv Sample.uploaded_world)))
    (output_dir_of Sample.t0) = Some Dir.
Proof. split; vm_compute; reflexivity. Qed.

Example output_dir_leaked_on_no_output :
  fst (run_yomitoku (Sample.engine_exits 0 "") Sample.t0 Sample.input_pdf "csv"
                    true Sample.uploaded_world)
    = Ok (false, None, None, Some "No output file generated") /\
  Fs.lookup
    (files (snd (main_on_click (Sample.engine_exits 0 "") Sample.t0
                               Sample.session_csv Sample.uploaded_world)))
    (output_dir_of Sample.t0) = Some Dir.
Proof. split; vm_compute; reflexivity. Qed.

(** On the success exit the handler reads the result and releases both the
    input artifact and the output directory: only [TEMP_DIR] is left. *)
Example success_releases_artifacts :
  main_on_click
    (Sample.engine_writes [(output_dir_of Sample.t0 ++ ["doc.csv"], "a,b")])
    Sample.t0 Sample.session_csv Sample.uploaded_world
  = (Ok (mk_session (Some "a,b") (Some Sample.input_pdf) (Some "doc.pdf") "csv"),
     mk_world [(TEMP_DIR, Dir)]
              [((2 # 10)%Q, "Running yomitoku...");
               ((8 # 10)%Q, "Processing results...");
               (1%Q, "Complete!")]
              [Success "処理が完了しました！"]).
Proof. vm_compute. reflexivity. Qed.

(** ** More on the file system *)

Lemma lookup_filter (f : Path -> bool) (fs : FS) (q : Path) :
  Fs.lookup (filter (fun e => f (fst e)) fs) q
  = if f q then Fs.lookup fs q else None.
Proof.
  induction fs as [|[k n] fs IH]; cbn [filter fst Fs.lookup].
  - now destruct (f q).
  - destruct (path_eqb_spec k q) as [->|N].
    + destruct (f q) eqn:F; cbn [Fs.lookup].
      * now rewrite path_eqb_refl.
      * rewrite IH, ?F. reflexivity.
    + destruct (f k); cbn [Fs.lookup]; [rewrite path_eqb_neq by exact N|];
        exact IH.
Qed.

Lemma lookup_remove_other (fs : FS) (p q : Path) :
  p <> q -> Fs.lookup (Fs.remove p fs) q = Fs.lookup fs q.
Proof.
  intros N. unfold Fs.remove.
  rewrite (lookup_filter (fun k => negb (Pathlib.eqb k p))).
  now rewrite path_eqb_neq by congruence.
Qed.

Lemma lookup_remove_some (fs : FS) (p q : Path) (n : node) :
  Fs.lookup (Fs.remove p fs) q = Some n -> Fs.lookup fs q = Some n.
Proof.
  unfold Fs.remove.
  rewrite (lookup_filter (fun k => negb (Pathlib.eqb k p))).
  now destruct (negb (Pathlib.eqb q p)).
Qed.

(** ** Computations that only remove *)

Lemma only_removes_ret {A} (a : A) : only_removes (ret a).
Proof. now intros w q n. Qed.

Lemma only_removes_bind {A B} (m : Eff A) (k : A -> Eff B) :
  only_removes m -> (forall a, only_removes (k a)) -> only_removes (bind m k).
Proof.
  intros Hm Hk w q n. unfold bind. specialize (Hm w q n).
  destruct (m w) as [[a|e] w1]; cbn [snd] in *; [|exact Hm].
  intros H. apply Hm. now apply (Hk a w1).
Qed.

Lemma only_removes_try {A} (m : Eff A) (h : exn -> Eff A) :
  only_removes m -> (forall e, only_removes (h e)) ->
  only_removes (try_except m h).
Proof.
  intros Hm Hh w q n. unfold try_except. specialize (Hm w q n).
  destruct (m w) as [[a|e] w1]; cbn [snd] in *; [exact Hm|].
  intros H. apply Hm. now apply (Hh e w1).
Qed.

Lemma only_removes_for_each {A} (l : list A) (body : A -> Eff unit) :
  (forall a, only_removes (body a)) -> only_removes (for_each l body).
Proof.
  intros Hb. induction l as [|a l IH]; cbn [for_each].
  - apply only_removes_ret.
  - apply only_removes_bind; [apply Hb | intros _; exact IH].
Qed.

Lemma only_removes_unlink p : only_removes (Fs.unlink p).
Proof.
  intros w q n. unfold Fs.unlink.
  destruct (Fs.lookup (files w) p) as [[|]|]; cbn [snd with_files files]; auto.
  apply lookup_remove_some.
Qed.

Lemma only_removes_rmdir p : only_removes (Fs.rmdir p).
Proof.
  intros w q n. unfold Fs.rmdir.
  destruct (Fs.lookup (files w) p) as [[|]|]; cbn [snd]; auto.
  destruct (Fs.children (files w) p); cbn [snd with_files files]; auto.
  apply lookup_remove_some.
Qed.

Lemma only_removes_iterdir p : only_removes (Fs.iterdir p).
Proof.
  intros w q n. unfold Fs.iterdir.
  now destruct (Fs.lookup (files w) p) as [[|]|].
Qed.

Lemma only_removes_notice x : only_removes (st_notice x).
Proof. now intros w q n. Qed.

Lemma cleanup_only_removes p : only_removes (cleanup_temp_files p).
Proof.
  unfold cleanup_temp_files.
  apply only_removes_try; [|intros e; apply only_removes_notice].
  apply only_removes_bind; [now intros w q n|].
  intros [|]; [|apply only_removes_ret].
  apply only_removes_bind; [now intros w q n|]. intros [|].
  - apply only_removes_bind; [apply only_removes_iterdir|]. intros entries.
    apply only_removes_bind; [|intros _; apply only_removes_rmdir].
    apply only_removes_for_each. intros q. apply only_removes_unlink.
  - apply only_removes_unlink.
Qed.

Lemma cleanup_preserves_files_notices p (w : World) :
  notices (snd (cleanup_temp_files p w)) = notices w \/
  exists msg, notices (snd (cleanup_temp_files p w)) = notices w ++ [Warning msg].
Proof.
  unfold cleanup_temp_files, try_except.
  set (body := bind (Fs.exists_ p) _).
  assert (P : preserves notices body).
  { subst body.
    apply preserves_bind; [apply preserves_exists|].
    intros [|]; [|apply preserves_ret].
    apply preserves_bind; [apply preserves_is_dir|]. intros [|].
    - apply preserves_bind; [now apply preserves_iterdir|]. intros entries.
      apply preserves_bind; [|intros _; now apply preserves_rmdir].
      apply preserves_for_each. intros q. now apply preserves_unlink.
    - now apply preserves_unlink. }
  specialize (P w). destruct (body w) as [[[]|e] w1]; cbn [snd] in *.
  - now left.
  - right. exists ("Failed to cleanup temp files: " ++ exn_str e)%string.
    cbn. now rewrite P.
Qed.

Lemma cleanup_returns p (w : World) : fst (cleanup_temp_files p w) = Ok tt.
Proof.
  unfold cleanup_temp_files, try_except.
  destruct (bind (Fs.exists_ p) _ w) as [[[]|e] w1]; reflexivity.
Qed.

(** X1. [cleanup_temp_files] never raises and never creates anything: it
    returns normally in every world, it shows at most one notice, a warning,
    it leaves the progress sink alone, and whatever a path holds afterwards
    it held before the call. *)
Theorem cleanup_temp_files_non_fatal (temp_path : Path) (w : World) :
  fst (cleanup_temp_files temp_path w) = Ok tt /\
  progress (snd (cleanup_temp_files temp_path w)) = progress w /\
  (notices (snd (cleanup_temp_files temp_path w)) = notices w \/
   exists msg,
     notices (snd (cleanup_temp_files temp_path w))
     = notices w ++ [Warning msg]) /\
  (forall q n,
      Fs.lookup (files (snd (cleanup_temp_files temp_path w))) q = Some n ->
      Fs.lookup (files w) q = Some n).
Proof.
  split; [apply cleanup_returns|].
  split; [apply cleanup_preserves_progress|].
  split; [apply cleanup_preserves_files_notices|].
  intros q n. apply cleanup_only_removes.
Qed.

(** ** Releasing a directory *)

Lemma split_last_app (d : Path) (n : string) :
  Pathlib.split_last (d ++ [n]) = Some (d, n).
Proof.
  induction d as [|a d IH]; [reflexivity|].
  cbn [app Pathlib.split_last]. rewrite IH. now destruct (d ++ [n]) eqn:E;
    [destruct d; discriminate|].
Qed.

Lemma split_last_some (q d : Path) (n : string) :
  Pathlib.split_last q = Some (d, n) -> q = d ++ [n].
Proof.
  revert d. induction q as [|a q IH]; intros d; [discriminate|].
  cbn [Pathlib.split_last]. destruct q as [|b q].
  - intros H. now injection H as <- <-.
  - destruct (Pathlib.split_last (b :: q)) as [[d' n']|]; [|discriminate].
    intros H. injection H as <- <-. cbn [app]. f_equal. now apply IH.
Qed.

(** A directory is not its own entry. *)
Lemma is_child_neq (d q : Path) : Fs.is_child d q = true -> q <> d.
Proof.
  unfold Fs.is_child.
  destruct (Pathlib.split_last q) as [[d' n]|] eqn:E; [|discriminate].
  intros H. destruct (path_eqb_spec d' d) as [->|]; [|discriminate].
  apply split_last_some in E. intros ->.
  apply (f_equal (@List.length string)) in E.
  rewrite List.length_app in E. cbn in E. lia.
Qed.

Lemma in_children (fs : FS) (d q : Path) :
  In q (Fs.children fs d) <-> In q (map fst fs) /\ Fs.is_child d q = true.
Proof.
  unfold Fs.children. rewrite !in_map_iff. split.
  - intros ([k n] & <- & H). apply filter_In in H. destruct H as [H1 H2].
    split; [|exact H2]. now exists (k, n).
  - intros (([k n] & <- & H1) & H2). exists (k, n). split; [reflexivity|].
    apply filter_In. now split.
Qed.

Lemma lookup_in_keys (fs : FS) (q : Path) (n : node) :
  Fs.lookup fs q = Some n -> In q (map fst fs).
Proof.
  induction fs as [|[k m] fs IH]; [discriminate|]. cbn [Fs.lookup map fst].
  destruct (path_eqb_spec k q) as [->|]; [now left | right; auto].
Qed.

Lemma keys_lookup (fs : FS) (q : Path) :
  In q (map fst fs) -> exists n, Fs.lookup fs q = Some n.
Proof.
  induction fs as [|[k m] fs IH]; [intros []|]. cbn [Fs.lookup map fst].
  intros [->|H].
  - exists m. now rewrite path_eqb_refl.
  - destruct (Pathlib.eqb k q); [now exists m | auto].
Qed.

Lemma NoDup_keys_filter (f : Path * node -> bool) (fs : FS) :
  well_formed fs -> NoDup (map fst (filter f fs)).
Proof.
  unfold well_formed. induction fs as [|[k n] fs IH]; cbn [filter map fst];
    [constructor|].
  intros H. inversion H as [|? ? Hk Hfs]; subst.
  destruct (f (k, n)); cbn [map fst]; [|now apply IH].
  constructor; [|now apply IH].
  intros Hin. apply Hk. apply in_map_iff in Hin.
  destruct Hin as (e & <- & He). apply filter_In in He.
  apply in_map. tauto.
Qed.

Lemma filter_twice {A} (f g : A -> bool) (l : list A) :
  filter g (filter f l) = filter (fun x => f x && g x) l.
Proof.
  induction l as [|a l IH]; [reflexivity|]. cbn [filter].
  destruct (f a); cbn [filter andb]; [destruct (g a)|]; now rewrite IH.
Qed.

Lemma with_files_twice (fs fs' : FS) (w : World) :
  with_files fs (with_files fs' w) = with_files fs w.
Proof. reflexivity. Qed.

(** Unlinking a list of distinct regular files removes exactly them. *)
Lemma for_each_unlink_files (l : list Path) (w : World) :
  NoDup l ->
  (forall q, In q l -> exists c, Fs.lookup (files w) q = Some (File c)) ->
  for_each l Fs.unlink w
  = (Ok tt,
     with_files
       (filter (fun e => negb (existsb (Pathlib.eqb (fst e)) l)) (files w)) w).
Proof.
  revert w. induction l as [|a l IH]; intros w Hd Hf.
  - cbn. unfold ret. f_equal. destruct w as [fs pr no]. unfold with_files.
    cbn. f_equal. induction fs as [|e fs IHfs]; [reflexivity|].
    cbn. now rewrite <- IHfs.
  - inversion Hd as [|? ? Ha Hl]; subst.
    cbn [for_each]. unfold bind.
    destruct (Hf a (or_introl eq_refl)) as [c Hc].
    unfold Fs.unlink at 1. rewrite Hc.
    rewrite IH; [| exact Hl |].
    + cbn [files with_files]. rewrite with_files_twice. do 2 f_equal.
      unfold Fs.remove. rewrite filter_twice. apply filter_ext.
      intros [k n]. cbn [fst existsb]. now rewrite negb_orb.
    + intros q Hq. destruct (Hf q (or_intror Hq)) as [c' Hc'].
      exists c'. cbn [files with_files].
      rewrite lookup_remove_other; [exact Hc'|]. intros ->. contradiction.
Qed.

Lemma existsb_eqb_In (q : Path) (l : list Path) :
  existsb (Pathlib.eqb q) l = true <-> In q l.
Proof.
  rewrite existsb_exists. split.
  - intros (x & Hx & E). destruct (path_eqb_spec q x); [now subst | discriminate].
  - intros H. exists q. split; [exact H | apply path_eqb_refl].
Qed.

(** What is left of a file system once the entries of [d] are taken out,
    and once [d] itself is. *)
Lemma without_entries_lookup (fs : FS) (d q : Path) :
  Fs.lookup
    (filter (fun e => negb (existsb (Pathlib.eqb (fst e)) (Fs.children fs d))) fs)
    q
  = if Fs.is_child d q then None else Fs.lookup fs q.
Proof.
  rewrite (lookup_filter
             (fun k => negb (existsb (Pathlib.eqb k) (Fs.children fs d)))).
  destruct (existsb (Pathlib.eqb q) (Fs.children fs d)) eqn:E; cbn [negb].
  - apply existsb_eqb_In, in_children in E. destruct E as [_ ->]. reflexivity.
  - destruct (Fs.is_child d q) eqn:C; [|reflexivity].
    destruct (Fs.lookup fs q) as [n|] eqn:L; [|reflexivity].
    apply lookup_in_keys in L.
    assert (In q (Fs.children fs d)) as Hin by (apply in_children; now split).
    apply existsb_eqb_In in Hin. congruence.
Qed.

Lemma released_lookup (fs : FS) (d q : Path) :
  Fs.lookup
    (Fs.remove d
       (filter (fun e => negb (existsb (Pathlib.eqb (fst e)) (Fs.children fs d)))
               fs))
    q
  = if Pathlib.eqb q d || Fs.is_child d q then None else Fs.lookup fs q.
Proof.
  unfold Fs.remove.
  rewrite (lookup_filter (fun k => negb (Pathlib.eqb k d))),
    without_entries_lookup.
  destruct (Pathlib.eqb q d); reflexivity.
Qed.

Lemma cleanup_dir_of_files (d : Path) (w : World) :
  well_formed (files w) ->
  Fs.lookup (files w) d = Some Dir ->
  (forall q, In q (Fs.children (files w) d) ->
             exists c, Fs.lookup (files w) q = Some (File c)) ->
  cleanup_temp_files d w
  = (Ok tt,
     with_files
       (Fs.remove d
          (filter (fun e => negb (existsb (Pathlib.eqb (fst e))
                                          (Fs.children (files w) d)))
                  (files w)))
       w).
Proof.
  intros Hwf Hd Hfiles.
  set (kept := filter (fun e => negb (existsb (Pathlib.eqb (fst e))
                                        (Fs.children (files w) d)))
                      (files w)).
  assert (Hc : Fs.children kept d = []).
  { destruct (Fs.children kept d) as [|q l] eqn:E; [reflexivity|].
    assert (Hin : In q (Fs.children kept d)) by (rewrite E; now left).
    apply in_children in Hin. destruct Hin as [Hk C].
    apply keys_lookup in Hk. destruct Hk as [n Hn].
    subst kept. rewrite without_entries_lookup, C in Hn. discriminate. }
  rewrite (cleanup_dir _ _ Hd). unfold try_except, bind.
  rewrite for_each_unlink_files;
    [| now apply NoDup_keys_filter | exact Hfiles ].
  fold kept. unfold Fs.rmdir. cbn [files with_files].
  replace (Fs.lookup kept d) with (Some Dir); [now rewrite Hc|].
  subst kept. rewrite without_entries_lookup, Hd.
  destruct (Fs.is_child d d) eqn:C; [|reflexivity].
  now apply is_child_neq in C.
Qed.

(** X2. In a file system that lists no path twice, releasing a directory
    whose entries are all regular files goes through without a warning: the
    directory and its entries are gone, and every other path holds what it
    held. *)
Theorem cleanup_temp_files_directory (temp_path : Path) (w : World) :
  well_formed (files w) ->
  Fs.lookup (files w) temp_path = Some Dir ->
  (forall q, In q (Fs.children (files w) temp_path) ->
             exists c, Fs.lookup (files w) q = Some (File c)) ->
  exists fs',
    cleanup_temp_files temp_path w = (Ok tt, with_files fs' w) /\
    forall q,
      Fs.lookup fs' q
      = if Pathlib.eqb q temp_path || Fs.is_child temp_path q then None
        else Fs.lookup (files w) q.
Proof.
  intros Hwf Hd Hfiles. eexists. split.
  - now apply cleanup_dir_of_files.
  - intros q. apply released_lookup.
Qed.

(** The output directory of a finished job is released: its files are gone,
    the input artifact is still there. *)
Lemma cleanup_temp_files_directory_witness :
  Fs.lookup
    (files (snd (cleanup_temp_files (output_dir_of Sample.t0)
                                    Sample.finished_world)))
    (output_dir_of Sample.t0 ++ ["a.md"]) = None /\
  Fs.lookup
    (files (snd (cleanup_temp_files (output_dir_of Sample.t0)
                                    Sample.finished_world)))
    Sample.input_pdf = Some (File "%PDF").
Proof.
  destruct (cleanup_temp_files_directory (output_dir_of Sample.t0)
                                         Sample.finished_world)
    as (fs' & E & L).
  - unfold well_formed. vm_compute.
    repeat (constructor; [cbn; intuition discriminate|]). constructor.
  - reflexivity.
  - vm_compute. intros q [<-|[<-|[]]]; eauto.
  - rewrite E. cbn [snd files with_files]. rewrite !L. split; reflexivity.
Defined.

(** ** Releasing a directory that holds a directory *)

Lemma for_each_unlink_directory (l : list Path) (sub : Path) (w : World) :
  In sub l -> Fs.lookup (files w) sub = Some Dir ->
  exists e w1,
    for_each l Fs.unlink w = (Raise e, w1) /\
    notices w1 = notices w /\
    forall q, Fs.lookup (files w) q = Some Dir ->
              Fs.lookup (files w1) q = Some Dir.
Proof.
  revert w. induction l as [|a l IH]; intros w Hin Hsub; [destruct Hin|].
  cbn [for_each]. unfold bind, Fs.unlink at 1.
  destruct (Fs.lookup (files w) a) as [[c|]|] eqn:Ha.
  - assert (Hne : forall q, Fs.lookup (files w) q = Some Dir -> a <> q)
      by (intros q Hq ->; congruence).
    destruct Hin as [->|Hin]; [congruence|].
    destruct (IH (with_files (Fs.remove a (files w)) w) Hin) as (e & w1 & E & N & D).
    + cbn [files with_files]. rewrite lookup_remove_other; auto.
    + exists e, w1. split; [exact E|]. split; [exact N|].
      intros q Hq. apply D. cbn [files with_files].
      rewrite lookup_remove_other; auto.
  - exists (IsADirectoryError a), w. auto.
  - exists (FileNotFoundError a), w. auto.
Qed.

(** X3. Releasing a directory that holds a directory fails, and the failure
    is not fatal: the call returns, one warning is shown, and both
    directories are still there ([cleanup_temp_files] unlinks the entries of
    a directory and does not descend). *)
Theorem cleanup_temp_files_nested (temp_path sub : Path) (w : World) :
  Fs.lookup (files w) temp_path = Some Dir ->
  In sub (Fs.children (files w) temp_path) ->
  Fs.lookup (files w) sub = Some Dir ->
  exists msg w',
    cleanup_temp_files temp_path w = (Ok tt, w') /\
    notices w' = notices w ++ [Warning msg] /\
    Fs.lookup (files w') temp_path = Some Dir /\
    Fs.lookup (files w') sub = Some Dir.
Proof.
  intros Hd Hin Hsub. rewrite (cleanup_dir _ _ Hd). unfold try_except, bind.
  destruct (for_each_unlink_directory _ sub w Hin Hsub) as (e & w1 & E & N & D).
  rewrite E.
  exists ("Failed to cleanup temp files: " ++ exn_str e)%string.
  eexists. split; [reflexivity|]. cbn [st_warning st_notice notices files].
  rewrite N. auto.
Qed.

(** The output directory holds a directory of figures: it is not released,
    but [b.md], enumerated before the figures, is already gone. *)
Lemma cleanup_temp_files_nested_witness :
  Fs.lookup
    (files (snd (cleanup_temp_files (output_dir_of Sample.t0)
                                    Sample.figures_world)))
    (output_dir_of Sample.t0) = Some Dir.
Proof.
  destruct (cleanup_temp_files_nested
              (output_dir_of Sample.t0) (output_dir_of Sample.t0 ++ ["figures"])
              Sample.figures_world) as (msg & w' & E & _ & H & _).
  - reflexivity.
  - vm_compute. auto.
  - reflexivity.
  - rewrite E. exact H.
Defined.

Example partial_release :
  map fst (files (snd (cleanup_temp_files (output_dir_of Sample.t0)
                                          Sample.figures_world)))
  = [TEMP_DIR; Sample.input_pdf; output_dir_of Sample.t0;
     output_dir_of Sample.t0 ++ ["figures"]; output_dir_of Sample.t0 ++ ["a.md"]].
Proof. vm_compute. reflexivity. Qed.

(** ** The handler of [main] on the success exit *)

Lemma glob_list_directory (fs : FS) (d f : Path) (pat : string) (rest : list Path) :
  Fs.glob_list fs d pat = f :: rest ->
  Fs.lookup fs d = Some Dir /\ In f (Fs.children fs d).
Proof.
  unfold Fs.glob_list. destruct (Fs.lookup fs d) as [[|]|]; try discriminate.
  intros E. split; [reflexivity|].
  assert (H : In f (f :: rest)) by now left.
  rewrite <- E in H. now apply filter_In in H.
Qed.

Lemma well_formed_remove (p : Path) (fs : FS) :
  well_formed fs -> well_formed (Fs.remove p fs).
Proof. intros H. now apply NoDup_keys_filter. Qed.

Lemma children_remove (fs : FS) (p d q : Path) :
  In q (Fs.children (Fs.remove p fs) d) ->
  q <> p /\ In q (Fs.children fs d).
Proof.
  intros H. apply in_children in H. destruct H as [Hk C].
  apply keys_lookup in Hk. destruct Hk as [n Hn].
  assert (Hq : q <> p).
  { intros ->. rewrite lookup_remove in Hn. discriminate. }
  split; [exact Hq|]. apply in_children. split; [|exact C].
  apply lookup_remove_some in Hn. now apply lookup_in_keys in Hn.
Qed.

(** X4. A job that succeeds is read and then released. When the engine
    exits with status zero in a file system that lists no path twice, where
    the input artifact is a regular file, the entries of the output
    directory are regular files and the first match holds well-formed UTF-8,
    the handler of [main] stores the text of the first match, its bytes
    decoded with the line ends translated, as the result and shows the
    success notice only; the input artifact, the output directory and the
    result file are gone, every path outside the output directory other than
    the input holds what the engine left, and the button is disabled
    again. *)
Theorem main_execute_success engine now ss input w cp fs f rest c ci :
  input_image_path ss = Some input ->
  engine_invocation engine now input (output_format ss) w = Some (Ok cp, fs) ->
  returncode cp = 0%Z ->
  Fs.glob_list fs (output_dir_of now) ("*." ++ output_format ss) = f :: rest ->
  well_formed fs ->
  Fs.lookup fs f = Some (File c) ->
  PyStr.utf8_valid c = true ->
  Fs.lookup fs input = Some (File ci) ->
  (forall q, In q (Fs.children fs (output_dir_of now)) ->
             exists c', Fs.lookup fs q = Some (File c')) ->
  exists w',
    main_execute engine now ss w
      = (Ok (set_processed_result (Some (PyStr.universal_newlines c)) ss), w') /\
    notices w' = notices w ++ [Success "処理が完了しました！"] /\
    Fs.lookup (files w') input = None /\
    Fs.lookup (files w') (output_dir_of now) = None /\
    Fs.lookup (files w') f = None /\
    (forall q, q <> input -> q <> output_dir_of now ->
               Fs.is_child (output_dir_of now) q = false ->
               Fs.lookup (files w') q = Fs.lookup fs q) /\
    can_execute (set_processed_result (Some (PyStr.universal_newlines c)) ss) w'
    = false.
Proof.
  intros Hin Hinv Hrc Hglob Hwf Hf Hutf Hinput Hfiles.
  destruct (glob_list_directory _ _ _ _ _ Hglob) as [Hd Hfc].
  assert (Hne : input <> output_dir_of now) by (intros E; congruence).
  set (w1 := mk_world fs (progress w ++ emitted true
                            (Succeeded f (output_dir_of now))) (notices w)).
  assert (Hrun : run_yomitoku engine now input (output_format ss) true w
                 = (Ok (true, Some f, Some (output_dir_of now), None), w1)).
  { rewrite (run_yomitoku_eq _ _ _ _ true _ _ _ Hinv). unfold exit_of.
    apply Z.eqb_eq in Hrc. now rewrite Hrc, Hglob. }
  set (w2 := with_files (Fs.remove input fs) w1).
  assert (Hc1 : cleanup_temp_files input w1 = (Ok tt, w2))
    by exact (cleanup_file input w1 ci Hinput).
  assert (Hc2 : cleanup_temp_files (output_dir_of now) w2
                = (Ok tt,
                   with_files
                     (Fs.remove (output_dir_of now)
                        (filter (fun e => negb (existsb (Pathlib.eqb (fst e))
                                   (Fs.children (files w2) (output_dir_of now))))
                                (files w2)))
                     w2)).
  { apply cleanup_dir_of_files.
    - now apply well_formed_remove.
    - cbn [files w2 with_files]. now rewrite lookup_remove_other.
    - cbn [files w2 with_files]. intros q Hq.
      apply children_remove in Hq. destruct Hq as [Hq1 Hq2].
      destruct (Hfiles q Hq2) as [c' Hc'].
      exists c'. rewrite lookup_remove_other; auto. }
  eexists. split; [|split; [|split; [|split; [|split; [|split]]]]].
  - unfold main_execute. rewrite Hin. unfold bind at 1. rewrite Hrun.
    unfold try_except, bind.
    unfold Fs.read_text at 1. cbn [files w1]. rewrite Hf, Hutf. fold w1.
    rewrite Hc1, Hc2. reflexivity.
  - reflexivity.
  - cbn [files st_success st_notice ret snd with_files].
    rewrite released_lookup.
    destruct (Pathlib.eqb input (output_dir_of now) ||
              Fs.is_child (output_dir_of now) input); [reflexivity|].
    apply lookup_remove.
  - cbn [files with_files]. rewrite released_lookup.
    now rewrite path_eqb_refl.
  - cbn [files with_files]. rewrite released_lookup.
    apply in_children in Hfc. destruct Hfc as [_ ->].
    now rewrite orb_true_r.
  - intros q Hq1 Hq2 Hq3. cbn [files with_files].
    rewrite released_lookup, Hq3, path_eqb_neq by exact Hq2.
    cbn [orb]. cbn [files w2 with_files]. now apply lookup_remove_other.
  - unfold can_execute. cbn [input_image_path set_processed_result].
    rewrite Hin. cbn [files with_files]. rewrite released_lookup.
    destruct (Pathlib.eqb input (output_dir_of now) ||
              Fs.is_child (output_dir_of now) input); [reflexivity|].
    cbn [files w2 with_files]. now rewrite lookup_remove.
Qed.
(** The engine writes [doc.csv] for [doc.pdf], with a line that ends in a
    carriage return and a line feed: its text becomes the result. *)
Lemma main_execute_success_witness :
  fst (main_execute
         (Sample.engine_writes
            [(output_dir_of Sample.t0 ++ ["doc.csv"], Sample.csv_bytes)])
         Sample.t0 Sample.session_csv Sample.uploaded_world)
  = Ok (set_processed_result (Some Sample.csv_text) Sample.session_csv).
Proof.
  destruct (main_execute_success
              (Sample.engine_writes
                 [(output_dir_of Sample.t0 ++ ["doc.csv"], Sample.csv_bytes)])
              Sample.t0 Sample.session_csv Sample.input_pdf Sample.uploaded_world
              (mk_completed 0 "" "")
              [(TEMP_DIR, Dir); (Sample.input_pdf, File "%PDF");
               (output_dir_of Sample.t0, Dir);
               (output_dir_of Sample.t0 ++ ["doc.csv"], File Sample.csv_bytes)]
              (output_dir_of Sample.t0 ++ ["doc.csv"]) [] Sample.csv_bytes "%PDF")
    as (w' & E & _).
  - reflexivity.
  - reflexivity.
  - reflexivity.
  - reflexivity.
  - unfold well_formed. vm_compute.
    repeat (constructor; [cbn; intuition discriminate|]). constructor.
  - reflexivity.
  - reflexivity.
  - reflexivity.
  - vm_compute. intros q [<-|[]]. eauto.
  - now rewrite E.
Defined.

(** ** The handler of [main] when the result cannot be read *)

(** X5. When the first match cannot be read (the model's case: it is a
    directory whose name matches), the handler shows the error of the read,
    clears the result and releases nothing: the file system stays as the
    engine left it. *)
Theorem main_execute_unreadable engine now ss input w cp fs f rest :
  input_image_path ss = Some input ->
  engine_invocation engine now input (output_format ss) w = Some (Ok cp, fs) ->
  returncode cp = 0%Z ->
  Fs.glob_list fs (output_dir_of now) ("*." ++ output_format ss) = f :: rest ->
  Fs.lookup fs f = Some Dir ->
  exists w',
    main_execute engine now ss w = (Ok (set_processed_result None ss), w') /\
    notices w'
    = notices w ++ [Error ("Failed to read result: "
                           ++ exn_str (IsADirectoryError f))%string] /\
    files w' = fs.
Proof.
  intros Hin Hinv Hrc Hglob Hf.
  eexists. split; [|split].
  - unfold main_execute. rewrite Hin. unfold bind at 1.
    rewrite (run_yomitoku_eq _ _ _ _ true _ _ _ Hinv). unfold exit_of.
    apply Z.eqb_eq in Hrc. rewrite Hrc, Hglob. cbn [result_tuple].
    unfold try_except, bind. unfold Fs.read_text at 1. cbn [files].
    rewrite Hf. reflexivity.
  - reflexivity.
  - reflexivity.
Qed.

Lemma main_execute_unreadable_witness :
  fst (main_execute
         (fun _ _ fs => (Ok (mk_completed 0 "" ""),
                         fs ++ [(output_dir_of Sample.t0 ++ ["x.csv"], Dir)]))
         Sample.t0 Sample.session_csv Sample.uploaded_world)
  = Ok (set_processed_result None Sample.session_csv).
Proof.
  destruct (main_execute_unreadable
              (fun _ _ fs => (Ok (mk_completed 0 "" ""),
                              fs ++ [(output_dir_of Sample.t0 ++ ["x.csv"], Dir)]))
              Sample.t0 Sample.session_csv Sample.input_pdf Sample.uploaded_world
              (mk_completed 0 "" "")
              [(TEMP_DIR, Dir); (Sample.input_pdf, File "%PDF");
               (output_dir_of Sample.t0, Dir);
               (output_dir_of Sample.t0 ++ ["x.csv"], Dir)]
              (output_dir_of Sample.t0 ++ ["x.csv"]) [])
    as (w' & E & _).
  - reflexivity.
  - reflexivity.
  - reflexivity.
  - reflexivity.
  - reflexivity.
  - now rewrite E.
Defined.

(** X16. When the first match is a regular file whose bytes are no
    well-formed UTF-8, the read raises inside the [try] of the handler: an
    error that starts with ["Failed to read result: "] is shown, the result
    is cleared, and nothing is released, so the file system stays as the
    engine left it. *)
Theorem main_execute_undecodable engine now ss input w cp fs f rest c :
  input_image_path ss = Some input ->
  engine_invocation engine now input (output_format ss) w = Some (Ok cp, fs) ->
  returncode cp = 0%Z ->
  Fs.glob_list fs (output_dir_of now) ("*." ++ output_format ss) = f :: rest ->
  Fs.lookup fs f = Some (File c) ->
  PyStr.utf8_valid c = false ->
  exists msg w',
    main_execute engine now ss w = (Ok (set_processed_result None ss), w') /\
    notices w' = notices w ++ [Error ("Failed to read result: " ++ msg)%string] /\
    files w' = fs.
Proof.
  intros Hin Hinv Hrc Hglob Hf Hutf.
  exists (exn_str UnicodeDecodeError). eexists. split; [|split].
  - unfold main_execute. rewrite Hin. unfold bind at 1.
    rewrite (run_yomitoku_eq _ _ _ _ true _ _ _ Hinv). unfold exit_of.
    apply Z.eqb_eq in Hrc. rewrite Hrc, Hglob. cbn [result_tuple].
    unfold try_except, bind. unfold Fs.read_text at 1. cbn [files].
    rewrite Hf, Hutf. reflexivity.
  - reflexivity.
  - reflexivity.
Qed.

(** The engine writes the bytes FF FE to [doc.csv]: the result is cleared,
    and the input artifact and the output file are still there. *)
Lemma main_execute_undecodable_witness :
  fst (main_execute
         (Sample.engine_writes
            [(output_dir_of Sample.t0 ++ ["doc.csv"], Sample.undecodable_bytes)])
         Sample.t0 Sample.session_csv Sample.uploaded_world)
  = Ok (set_processed_result None Sample.session_csv) /\
  files (snd (main_execute
                (Sample.engine_writes
                   [(output_dir_of Sample.t0 ++ ["doc.csv"],
                     Sample.undecodable_bytes)])
                Sample.t0 Sample.session_csv Sample.uploaded_world))
  = [(TEMP_DIR, Dir); (Sample.input_pdf, File "%PDF");
     (output_dir_of Sample.t0, Dir);
     (output_dir_of Sample.t0 ++ ["doc.csv"], File Sample.undecodable_bytes)].
Proof.
  destruct (main_execute_undecodable
              (Sample.engine_writes
                 [(output_dir_of Sample.t0 ++ ["doc.csv"],
                   Sample.undecodable_bytes)])
              Sample.t0 Sample.session_csv Sample.input_pdf Sample.uploaded_world
              (mk_completed 0 "" "")
              [(TEMP_DIR, Dir); (Sample.input_pdf, File "%PDF");
               (output_dir_of Sample.t0, Dir);
               (output_dir_of Sample.t0 ++ ["doc.csv"],
                File Sample.undecodable_bytes)]
              (output_dir_of Sample.t0 ++ ["doc.csv"]) []
              Sample.undecodable_bytes)
    as (msg & w' & E & _ & F).
  - reflexivity.
  - reflexivity.
  - reflexivity.
  - reflexivity.
  - reflexivity.
  - reflexivity.
  - rewrite E. split; [reflexivity | exact F].
Defined.

(** What reading in text mode does to the bytes of a file. *)
Example utf8_valid_examples :
  map PyStr.utf8_valid
      ["# Title"; "読み取り結果"; Sample.csv_bytes; Sample.undecodable_bytes;
       String (ascii_of_nat 192) (String (ascii_of_nat 128) "");
       String (ascii_of_nat 237) (String (ascii_of_nat 160)
                                         (String (ascii_of_nat 128) ""));
       String (ascii_of_nat 226) (String (ascii_of_nat 130) "")]
  = [true; true; true; false; false; false; false].
Proof. reflexivity. Qed.

Example universal_newlines_examples :
  PyStr.universal_newlines Sample.csv_bytes = Sample.csv_text /\
  PyStr.universal_newlines (String (ascii_of_nat 13) "")
  = String (ascii_of_nat 10) "".
Proof. split; reflexivity. Qed.

(** ** When [run_yomitoku] raises *)

Lemma output_dir_path (now : datetime) :
  output_dir_of now = TEMP_DIR ++ [("output_" ++ strftime_Ymd_HMS now)%string].
Proof.
  unfold output_dir_of, Pathlib.div, Pathlib.parse_parts. f_equal.
  rewrite split_no_separator.
  - cbn [filter]. rewrite long_component; [reflexivity|].
    rewrite string_length_app, strftime_length. cbn. lia.
  - rewrite mem_app, strftime_no_slash. reflexivity.
Qed.

Lemma temp_entry_neq (x : string) : TEMP_DIR ++ [x] <> TEMP_DIR.
Proof.
  intros E. apply (f_equal (@List.length string)) in E. discriminate E.
Qed.

Lemma ensure_temp_dir_cases (w : World) :
  match Fs.lookup (files w) TEMP_DIR with
  | Some (File _) => ensure_temp_dir w = (Raise (FileExistsError TEMP_DIR), w)
  | Some Dir => ensure_temp_dir w = (Ok tt, w)
  | None =>
      ensure_temp_dir w = (Ok tt, with_files (Fs.put TEMP_DIR Dir (files w)) w)
  end.
Proof.
  unfold ensure_temp_dir, Fs.mkdir_exist_ok.
  now destruct (Fs.lookup (files w) TEMP_DIR) as [[|]|].
Qed.

(** Once [TEMP_DIR] is there, making an entry of it fails only on a regular
    file of that name. *)
Lemma mkdir_in_temp_dir (x : string) (w : World) :
  Fs.lookup (files w) TEMP_DIR = Some Dir ->
  match Fs.lookup (files w) (TEMP_DIR ++ [x]) with
  | Some (File _) =>
      Fs.mkdir_exist_ok (TEMP_DIR ++ [x]) w
      = (Raise (FileExistsError (TEMP_DIR ++ [x])), w)
  | Some Dir => Fs.mkdir_exist_ok (TEMP_DIR ++ [x]) w = (Ok tt, w)
  | None =>
      Fs.mkdir_exist_ok (TEMP_DIR ++ [x]) w
      = (Ok tt, with_files (Fs.put (TEMP_DIR ++ [x]) Dir (files w)) w)
  end.
Proof.
  intros Ht. unfold Fs.mkdir_exist_ok, Fs.parent_error.
  rewrite split_last_app. cbn [TEMP_DIR]. fold TEMP_DIR. rewrite Ht.
  now destruct (Fs.lookup (files w) (TEMP_DIR ++ [x])) as [[|]|].
Qed.

(** After [ensure_temp_dir] has gone through, [TEMP_DIR] is a directory and
    the other paths hold what they held. *)
Lemma ensure_temp_dir_ok (w w1 : World) :
  ensure_temp_dir w = (Ok tt, w1) ->
  Fs.lookup (files w1) TEMP_DIR = Some Dir /\
  progress w1 = progress w /\ notices w1 = notices w /\
  forall q, q <> TEMP_DIR -> Fs.lookup (files w1) q = Fs.lookup (files w) q.
Proof.
  intros H. pose proof (ensure_temp_dir_cases w) as C.
  destruct (Fs.lookup (files w) TEMP_DIR) as [[|]|] eqn:E;
    rewrite C in H; try discriminate; injection H as <-.
  - auto.
  - cbn [files with_files progress notices].
    repeat split; [apply lookup_put_same|].
    intros q Hq. apply lookup_put_other. congruence.
Qed.

(** X6. [run_yomitoku] raises only while it makes its two directories, that
    is, when [temp] or [temp/output_<stamp>] is a regular file; the exception
    is [FileExistsError], and nothing has reached the sink or the notices.
    In every other world it returns a tuple: no exception of the engine
    escapes. *)
Theorem run_yomitoku_raises engine now input_path output_format
        progress_callback w :
  (is_file (files w) TEMP_DIR ->
   run_yomitoku engine now input_path output_format progress_callback w
   = (Raise (FileExistsError TEMP_DIR), w)) /\
  (~ is_file (files w) TEMP_DIR -> is_file (files w) (output_dir_of now) ->
   exists w',
     run_yomitoku engine now input_path output_format progress_callback w
     = (Raise (FileExistsError (output_dir_of now)), w') /\
     progress w' = progress w /\ notices w' = notices w) /\
  (~ is_file (files w) TEMP_DIR -> ~ is_file (files w) (output_dir_of now) ->
   exists r w',
     run_yomitoku engine now input_path output_format progress_callback w
     = (Ok r, w')).
Proof.
  pose proof (ensure_temp_dir_cases w) as C.
  split; [|split].
  - intros [c Hc]. rewrite Hc in C.
    unfold run_yomitoku, bind. now rewrite C.
  - intros Ht [c Hc].
    destruct (ensure_temp_dir w) as [[[]|e] w1] eqn:E.
    + destruct (ensure_temp_dir_ok _ _ E) as (T1 & P1 & N1 & O1).
      exists w1. unfold run_yomitoku, bind. rewrite E.
      rewrite output_dir_path in *.
      pose proof (mkdir_in_temp_dir ("output_" ++ strftime_Ymd_HMS now) w1 T1) as M.
      rewrite O1, Hc in M by apply temp_entry_neq. rewrite M.
      split; [reflexivity | auto].
    + exfalso. apply Ht. unfold is_file.
      destruct (Fs.lookup (files w) TEMP_DIR) as [[c'|]|];
        [now exists c' | rewrite C in E; discriminate
         | rewrite C in E; discriminate].
  - intros Ht Ho. apply run_yomitoku_total.
    unfold engine_invocation.
    destruct (ensure_temp_dir w) as [[[]|e] w1] eqn:E.
    + destruct (ensure_temp_dir_ok _ _ E) as (T1 & P1 & N1 & O1).
      rewrite output_dir_path in *.
      pose proof (mkdir_in_temp_dir ("output_" ++ strftime_Ymd_HMS now) w1 T1) as M.
      rewrite O1 in M by apply temp_entry_neq.
      destruct (Fs.lookup (files w)
                          (TEMP_DIR ++ [("output_" ++ strftime_Ymd_HMS now)%string]))
        as [[c|]|] eqn:L; rewrite M; try discriminate.
      exfalso. apply Ho. now exists c.
    + exfalso. apply Ht. unfold is_file.
      destruct (Fs.lookup (files w) TEMP_DIR) as [[c'|]|];
        [now exists c' | rewrite C in E; discriminate
         | rewrite C in E; discriminate].
Qed.

(** ** An output directory that is already there *)

(** X7. [run_yomitoku] takes the output directory as it finds it: when the
    directory of this second exists already and holds a match, and the
    engine exits with status zero without writing, the call reports success
    with that earlier file. *)
Theorem run_yomitoku_reuses_output_dir engine now input_path output_format
        progress_callback w cp f rest :
  Fs.lookup (files w) TEMP_DIR = Some Dir ->
  Fs.lookup (files w) (output_dir_of now) = Some Dir ->
  engine (command input_path output_format (output_dir_of now)) 300 (files w)
    = (Ok cp, files w) ->
  returncode cp = 0%Z ->
  Fs.glob_list (files w) (output_dir_of now) ("*." ++ output_format) = f :: rest ->
  fst (run_yomitoku engine now input_path output_format progress_callback w)
  = Ok (true, Some f, Some (output_dir_of now), None).
Proof.
  intros Ht Ho He Hrc Hg.
  assert (Hinv : engine_invocation engine now input_path output_format w
                 = Some (Ok cp, files w)).
  { unfold engine_invocation. pose proof (ensure_temp_dir_cases w) as C.
    rewrite Ht in C. rewrite C.
    unfold Fs.mkdir_exist_ok. rewrite Ho. now rewrite He. }
  rewrite (run_yomitoku_eq _ _ _ _ progress_callback _ _ _ Hinv).
  cbn [fst]. unfold exit_of. apply Z.eqb_eq in Hrc. now rewrite Hrc, Hg.
Qed.

Lemma run_yomitoku_reuses_output_dir_witness :
  fst (run_yomitoku (Sample.engine_exits 0 "") Sample.t0 Sample.input_pdf "md"
                    true Sample.finished_world)
  = Ok (true, Some (output_dir_of Sample.t0 ++ ["b.md"]),
        Some (output_dir_of Sample.t0), None).
Proof.
  apply (run_yomitoku_reuses_output_dir
           (Sample.engine_exits 0 "") Sample.t0 Sample.input_pdf "md" true
           Sample.finished_world (mk_completed 0 "" "")
           (output_dir_of Sample.t0 ++ ["b.md"])
           [output_dir_of Sample.t0 ++ ["a.md"]]); reflexivity.
Defined.

(** ** The three outcomes of a save *)





(** ** Which saved artifacts the validator accepts *)

Lemma digit_cases (n : nat) :
  In (digit n) ["0"; "1"; "2"; "3"; "4"; "5"; "6"; "7"; "8"; "9"]%char.
Proof.
  unfold digit. pose proof (Nat.mod_upper_bound n 10 ltac:(lia)) as B.
  destruct (n mod 10) as [|k]; [cbn; tauto|].
  do 9 (destruct k as [|k]; [cbn; tauto|]). lia.
Qed.

Lemma digit_not_dot (n : nat) : Ascii.eqb (digit n) "." = false.
Proof.
  pose proof (digit_cases n) as H. cbn [In] in H.
  repeat (destruct H as [E|H]; [now rewrite <- E|]). destruct H.
Qed.

Lemma digit_not_o (n : nat) : digit n <> "o"%char.
Proof.
  pose proof (digit_cases n) as H. cbn [In] in H.
  repeat (destruct H as [E|H]; [now rewrite <- E|]). destruct H.
Qed.

Lemma strftime_no_dot (t : datetime) :
  PyStr.mem "." (strftime_Ymd_HMS t) = false.
Proof.
  cbv [strftime_Ymd_HMS pad4 pad2 append PyStr.mem].
  rewrite !digit_not_dot. reflexivity.
Qed.

Lemma name_temp_entry (x : string) : Pathlib.name (TEMP_DIR ++ [x]) = x.
Proof. reflexivity. Qed.

Lemma append_assoc (s t u : string) : ((s ++ t) ++ u = s ++ t ++ u)%string.
Proof. induction s as [|a s IH]; cbn; [reflexivity | now rewrite IH]. Qed.

Lemma append_empty (s t : string) : (s ++ t)%string = "" -> s = "".
Proof. now destruct s. Qed.

(** The two halves of the validator's rule. *)
Lemma validate_of_extension (p : Path) (ext : string) :
  has_extension (Pathlib.name p) ext -> In (PyStr.lower ext) SUPPORTED_FORMATS ->
  validate_file_format p = true.
Proof.
  intros Hx Hin. unfold validate_file_format. rewrite str_in_In.
  rewrite (suffix_extension _ _ Hx).
  destruct Hx as (stem & _ & _ & _ & Hd). now rewrite normalised_suffix.
Qed.

Lemma validate_extension (p : Path) :
  validate_file_format p = true ->
  exists ext, has_extension (Pathlib.name p) ext /\
              In (PyStr.lower ext) SUPPORTED_FORMATS.
Proof.
  unfold validate_file_format. rewrite str_in_In. intros H.
  destruct (suffix_cases p) as [E | (ext & Hx & E)].
  - rewrite E in H. cbn in H. intuition discriminate.
  - exists ext. split; [exact Hx|].
    destruct Hx as (stem & _ & _ & _ & Hd).
    now rewrite E, normalised_suffix in H.
Qed.

Lemma supported_extension (ext : string) :
  In (PyStr.lower ext) SUPPORTED_FORMATS ->
  ext <> "" /\ PyStr.mem "." ext = false.
Proof.
  intros H. split.
  - intros ->. cbn in H. intuition discriminate.
  - rewrite <- mem_dot_lower. cbn in H.
    repeat (destruct H as [E|H]; [now rewrite <- E|]). destruct H.
Qed.

(** A character that is not in [s] and splits [s ++ t] splits [t]. *)
Lemma split_after_prefix (c : ascii) (s t u v : string) :
  PyStr.mem c s = false -> (s ++ t = u ++ String c v)%string ->
  exists pre, u = (s ++ pre)%string /\ t = (pre ++ String c v)%string.
Proof.
  revert u. induction s as [|a s IH]; intros u Hm E.
  - now exists u.
  - cbn [PyStr.mem] in Hm. apply orb_false_elim in Hm. destruct Hm as [Ha Hs].
    destruct u as [|b u]; cbn in E.
    + injection E as -> _. now rewrite Ascii.eqb_refl in Ha.
    + injection E as -> E. destruct (IH u Hs E) as (pre & -> & ->).
      now exists pre.
Qed.

Lemma stamped_valid_name (now : datetime) (name : string) :
  validate_file_format (TEMP_DIR ++ [(strftime_Ymd_HMS now ++ "_" ++ name)%string])
  = true ->
  exists pre ext,
    name = (pre ++ "." ++ ext)%string /\ In (PyStr.lower ext) SUPPORTED_FORMATS.
Proof.
  intros H. apply validate_extension in H.
  destruct H as (ext & (stem & E & _ & _ & _) & Hin).
  rewrite name_temp_entry in E.
  rewrite <- (append_assoc (strftime_Ymd_HMS now) "_" name) in E.
  apply (split_after_prefix "." _ name stem ext) in E.
  - destruct E as (pre & _ & ->). now exists pre, ext.
  - rewrite mem_app, strftime_no_dot. reflexivity.
Qed.

Lemma name_stamped_valid (now : datetime) (pre ext : string) :
  In (PyStr.lower ext) SUPPORTED_FORMATS ->
  validate_file_format
    (TEMP_DIR ++ [(strftime_Ymd_HMS now ++ "_" ++ pre ++ "." ++ ext)%string])
  = true.
Proof.
  intros Hin. destruct (supported_extension _ Hin) as [He Hd].
  apply (validate_of_extension _ ext); [|exact Hin].
  rewrite name_temp_entry.
  exists (strftime_Ymd_HMS now ++ "_" ++ pre)%string.
  split; [now rewrite !append_assoc|]. repeat split; auto.
  intros E. apply append_empty in E.
  pose proof (strftime_length now) as L. rewrite E in L. discriminate L.
Qed.

(** X9. Which uploads pass the validator once they are saved: the saved
    path of a name without separator is accepted exactly when the name ends
    with a dot and one of the supported extensions, in any letter case.  The
    time stamp in front counts as stem, so a name that is only an extension,
    such as [.png], is accepted once saved although the validator refuses it
    as it stands. *)
Theorem saved_upload_validity (now : datetime) (name : string) :
  PyStr.mem "/" name = false ->
  validate_file_format (TEMP_DIR // (strftime_Ymd_HMS now ++ "_" ++ name)) = true
  <-> exists pre ext,
        name = (pre ++ "." ++ ext)%string /\
        In (PyStr.lower ext) SUPPORTED_FORMATS.
Proof.
  intros Hs. rewrite (stamped_path now name Hs). split.
  - apply stamped_valid_name.
  - intros (pre & ext & -> & Hin). now apply name_stamped_valid.
Qed.

Lemma saved_upload_validity_witness :
  validate_file_format (TEMP_DIR // (strftime_Ymd_HMS Sample.t0 ++ "_" ++ ".png"))
  = true /\ validate_file_format [".png"] = false.
Proof.
  split; [|reflexivity].
  apply (proj2 (saved_upload_validity Sample.t0 ".png" eq_refl)).
  exists "", "png". split; [reflexivity|]. cbn. tauto.
Defined.

(** ** The input handling of [main] *)

Lemma save_pasted_image_ok now encoded (w w1 : World) (p : Path) :
  save_pasted_image now encoded w = (Ok (Some p), w1) ->
  p = TEMP_DIR ++ [(strftime_Ymd_HMS now ++ "_pasted.png")%string] /\
  Fs.lookup (files w1) p = Some (File encoded).
Proof.
  unfold save_pasted_image.
  change (strftime_Ymd_HMS now ++ "_pasted.png")%string
    with (strftime_Ymd_HMS now ++ "_" ++ "pasted.png")%string.
  rewrite (stamped_path now "pasted.png" eq_refl).
  unfold ensure_temp_dir, bind, try_except.
  destruct (Fs.mkdir_exist_ok TEMP_DIR w) as [[[]|e] w0]; [|discriminate].
  destruct (Fs.write_bytes _ encoded w0) as [[[]|e] w2] eqn:W.
  - cbn [ret]. intros H. injection H as <- <-. split; [reflexivity|].
    apply write_bytes_ok in W. subst w2. cbn [files with_files].
    apply lookup_put_same.
  - cbn. discriminate.
Qed.

(** X10. A pasted image that is saved can always be run: the handler of
    [main] points the session to [temp/<stamp>_pasted.png], which holds the
    image and passes the validator, names it [pasted_image.png], keeps the
    previous result and format, and the button is enabled. *)
Theorem main_input_paste now encoded ss w p w' :
  save_pasted_image now encoded w = (Ok (Some p), w') ->
  main_input now None (Some encoded) ss w
  = (Ok (mk_session (processed_result ss) (Some p) (Some "pasted_image.png")
                    (output_format ss)), w') /\
  p = TEMP_DIR ++ [(strftime_Ymd_HMS now ++ "_pasted.png")%string] /\
  validate_file_format p = true /\
  can_execute (mk_session (processed_result ss) (Some p)
                          (Some "pasted_image.png") (output_format ss)) w'
  = true.
Proof.
  intros H. destruct (save_pasted_image_ok _ _ _ _ _ H) as [Hp Hl].
  assert (Hv : validate_file_format p = true).
  { apply (validate_of_extension p "png"); [|cbn; tauto].
    rewrite Hp, name_temp_entry.
    exists (strftime_Ymd_HMS now ++ "_pasted")%string.
    split; [now rewrite append_assoc|]. repeat split; discriminate. }
  split; [|split; [exact Hp | split; [exact Hv|]]].
  - unfold main_input, bind. now rewrite H.
  - unfold can_execute. cbn [input_image_path]. now rewrite Hl.
Qed.

Lemma main_input_paste_witness :
  can_execute
    (mk_session None (Some (TEMP_DIR ++ ["20240102_030405_pasted.png"]))
                (Some "pasted_image.png") "md")
    (snd (save_pasted_image Sample.t0 "PNG" Sample.empty_world))
  = true.
Proof.
  exact (proj2 (proj2 (proj2 (main_input_paste
           Sample.t0 "PNG" (mk_session None None None "md") Sample.empty_world
           (TEMP_DIR ++ ["20240102_030405_pasted.png"])
           (snd (save_pasted_image Sample.t0 "PNG" Sample.empty_world))
           eq_refl)))).
Defined.

(** X11. An upload goes before a paste, and what the session becomes follows
    the outcome of the save. A saved upload becomes the input, under its
    original name, whatever was pasted, and the button is enabled exactly
    when the name ends with a dot and a supported extension; a failed save
    leaves the session, with its previous input, as it was; an exception of
    the save passes through. *)
Theorem main_input_upload now u pasted ss w :
  PyStr.mem "/" (uploaded_name u) = false ->
  (forall p w',
      save_uploaded_file now (uploaded_name u) (uploaded_buffer u) w
        = (Ok (Some p), w') ->
      main_input now (Some u) pasted ss w
      = (Ok (mk_session (processed_result ss) (Some p) (Some (uploaded_name u))
                        (output_format ss)), w') /\
      (can_execute (mk_session (processed_result ss) (Some p)
                               (Some (uploaded_name u)) (output_format ss)) w'
       = true <->
       exists pre ext,
         uploaded_name u = (pre ++ "." ++ ext)%string /\
         In (PyStr.lower ext) SUPPORTED_FORMATS)) /\
  (forall w',
      save_uploaded_file now (uploaded_name u) (uploaded_buffer u) w
        = (Ok None, w') ->
      main_input now (Some u) pasted ss w = (Ok ss, w')) /\
  (forall e w',
      save_uploaded_file now (uploaded_name u) (uploaded_buffer u) w
        = (Raise e, w') ->
      main_input now (Some u) pasted ss w = (Raise e, w')).
Proof.
  intros Hs. split; [|split].
  - intros p w' H. destruct (save_uploaded_file_ok _ _ _ _ _ _ H) as [Hp Hl].
    split.
    + unfold main_input, bind. now rewrite H.
    + unfold can_execute. cbn [input_image_path]. rewrite Hl, Hp.
      rewrite (stamped_path now _ Hs). split.
      * apply stamped_valid_name.
      * intros (pre & ext & E & Hin). rewrite E. now apply name_stamped_valid.
  - intros w' H. unfold main_input, bind. now rewrite H.
  - intros e w' H. unfold main_input, bind. now rewrite H.
Qed.

(** A photo is uploaded while an image sits in the paste button: the upload
    becomes the input and the button is enabled. *)
Lemma main_input_upload_witness :
  main_input Sample.t0 (Some (mk_uploaded "photo.JPG" "JFIF")) (Some "PNG")
             (mk_session None None None "md") Sample.empty_world
  = (Ok (mk_session None (Some (TEMP_DIR ++ ["20240102_030405_photo.JPG"]))
                    (Some "photo.JPG") "md"),
     snd (save_uploaded_file Sample.t0 "photo.JPG" "JFIF" Sample.empty_world)).
Proof.
  exact (proj1 (proj1 (main_input_upload
           Sample.t0 (mk_uploaded "photo.JPG" "JFIF") (Some "PNG")
           (mk_session None None None "md") Sample.empty_world eq_refl)
           (TEMP_DIR ++ ["20240102_030405_photo.JPG"])
           (snd (save_uploaded_file Sample.t0 "photo.JPG" "JFIF"
                                    Sample.empty_world))
           eq_refl)).
Defined.

(** ** Names of artifacts *)

(** X12. Artifacts do not collide by name: two uploads, at valid dates and
    with names without separator, go to the same path only when the second
    and the name are the same, and no upload goes to the path of an output
    directory. *)
Theorem artifact_paths_distinct (t1 t2 : datetime) (name1 name2 : string) :
  valid_datetime t1 -> valid_datetime t2 ->
  PyStr.mem "/" name1 = false -> PyStr.mem "/" name2 = false ->
  (TEMP_DIR // (strftime_Ymd_HMS t1 ++ "_" ++ name1)
   = TEMP_DIR // (strftime_Ymd_HMS t2 ++ "_" ++ name2) ->
   t1 = t2 /\ name1 = name2) /\
  (forall t, TEMP_DIR // (strftime_Ymd_HMS t1 ++ "_" ++ name1) <> output_dir_of t).
Proof.
  intros V1 V2 S1 S2. split.
  - intros E. apply stamped_path_injective in E; [|assumption|assumption].
    destruct E as [Et En]. split; [|exact En].
    now apply strftime_injective.
  - intros t E. rewrite (stamped_path t1 name1 S1), output_dir_path in E.
    apply app_inv_head in E. apply (f_equal (hd "")) in E. cbn [hd] in E.
    cbv [strftime_Ymd_HMS pad4 append] in E. injection E as E _.
    now apply digit_not_o in E.
Qed.

Lemma artifact_paths_distinct_witness :
  TEMP_DIR // (strftime_Ymd_HMS Sample.t0 ++ "_" ++ "output_20240102_030405")
  <> output_dir_of Sample.t0.
Proof.
  apply (proj2 (artifact_paths_distinct
                  Sample.t0 Sample.t0 "output_20240102_030405" "a.png"
                  ltac:(cbv; repeat split; lia) ltac:(cbv; repeat split; lia)
                  eq_refl eq_refl)).
Defined.

(** ** [generate_download_filename] *)

Lemma parse_single (n : string) :
  PyStr.mem "/" n = false -> 1 < String.length n ->
  Pathlib.parse_parts n = [n].
Proof.
  intros Hs Hl. unfold Pathlib.parse_parts.
  rewrite (split_no_separator _ _ Hs). cbn [filter].
  now rewrite (long_component _ Hl).
Qed.

Lemma stem_extension (p : Path) (stem ext : string) :
  Pathlib.name p = (stem ++ "." ++ ext)%string ->
  stem <> "" -> ext <> "" -> PyStr.mem "." ext = false ->
  Pathlib.stem p = stem.
Proof.
  intros Hn Hs He Hd. unfold Pathlib.stem. cbv zeta. rewrite Hn.
  change (stem ++ "." ++ ext)%string with (stem ++ String "." ext)%string.
  rewrite (rfind_app "." stem ext Hd), string_length_app. cbn [String.length].
  assert (0 < String.length stem) by (destruct stem; cbn; [congruence | lia]).
  assert (0 < String.length ext) by (destruct ext; cbn; [congruence | lia]).
  replace (0 <? String.length stem) with true by (symmetry; apply Nat.ltb_lt; lia).
  replace (String.length stem <? String.length stem + S (String.length ext) - 1)
    with true by (symmetry; apply Nat.ltb_lt; lia).
  apply take_app.
Qed.

Lemma stem_no_dot (p : Path) :
  PyStr.mem "." (Pathlib.name p) = false -> Pathlib.stem p = Pathlib.name p.
Proof.
  intros H. unfold Pathlib.stem. cbv zeta.
  now rewrite (proj2 (rfind_none "." _) H).
Qed.

Lemma mem_take (c : ascii) (n : nat) (s : string) :
  PyStr.mem c s = false -> PyStr.mem c (PyStr.take n s) = false.
Proof.
  revert s. induction n as [|n IH]; intros [|a s]; cbn; auto.
  intros H. apply orb_false_elim in H. destruct H as [-> H]. now apply IH.
Qed.

(** The stem of a name without separator has no separator. *)
Lemma stem_no_slash (original : string) :
  PyStr.mem "/" original = false ->
  PyStr.mem "/" (Pathlib.stem (Pathlib.parse_parts original)) = false.
Proof.
  intros Hs.
  assert (Hn : PyStr.mem "/" (Pathlib.name (Pathlib.parse_parts original)) = false).
  { unfold Pathlib.parse_parts. rewrite (split_no_separator _ _ Hs).
    cbn [filter].
    now destruct (negb (String.eqb original "") && negb (String.eqb original ".")). }
  unfold Pathlib.stem. cbv zeta.
  destruct (PyStr.rfind "." (Pathlib.name (Pathlib.parse_parts original)));
    [|exact Hn].
  destruct (_ && _); [now apply mem_take | exact Hn].
Qed.

Lemma strftime_Ymd_no_slash (t : datetime) :
  PyStr.mem "/" (strftime_Ymd t) = false.
Proof.
  cbv [strftime_Ymd pad4 pad2 append PyStr.mem].
  rewrite !digit_not_slash. reflexivity.
Qed.

(** X13. The download name of a result, at a date with a year of four
    digits. For an original name without separator,
    [generate_download_filename] drops the last extension only (a non-empty
    stem, a dot, a non-empty run without dot) and keeps a name without dot
    whole; it then appends the date and [_ocr.<format>], so for a format
    without dot and without separator, such as [md], the download name is a
    single path component with the suffix [.md] whatever the original name
    was. *)
Theorem download_filename now original format_ext :
  1000 <= year now -> valid_datetime now ->
  PyStr.mem "/" original = false ->
  (forall stem ext,
      original = (stem ++ "." ++ ext)%string ->
      stem <> "" -> ext <> "" -> PyStr.mem "." ext = false ->
      generate_download_filename now original format_ext
      = (stem ++ "_" ++ strftime_Ymd now ++ "_ocr." ++ format_ext)%string) /\
  (PyStr.mem "." original = false ->
   generate_download_filename now original format_ext
   = (original ++ "_" ++ strftime_Ymd now ++ "_ocr." ++ format_ext)%string) /\
  (format_ext <> "" -> PyStr.mem "." format_ext = false ->
   PyStr.mem "/" format_ext = false ->
   Pathlib.parse_parts (generate_download_filename now original format_ext)
   = [generate_download_filename now original format_ext] /\
   Pathlib.suffix
     (Pathlib.parse_parts (generate_download_filename now original format_ext))
   = ("." ++ format_ext)%string).
Proof.
  intros _ _ Hs. unfold generate_download_filename. cbv zeta.
  split; [|split].
  - intros stem ext E Hst He Hd. f_equal.
    apply (stem_extension _ stem ext); auto.
    rewrite parse_single; [exact E | exact Hs |].
    rewrite E, string_length_app. cbn [String.length append].
    destruct stem; [congruence | cbn; lia].
  - intros Hd. f_equal. rewrite stem_no_dot.
    + destruct original as [|a [|b n]]; try reflexivity.
      * cbn in Hd. unfold Pathlib.parse_parts. cbn [PyStr.split].
        cbn in Hs. apply orb_false_elim in Hs. destruct Hs as [-> _].
        cbn [filter]. apply orb_false_elim in Hd. destruct Hd as [Ha _].
        assert (E : String.eqb (String a "") "." = false).
        { cbn. now rewrite Ha. }
        rewrite E. reflexivity.
      * rewrite parse_single; [reflexivity | exact Hs | cbn; lia].
    + destruct original as [|a [|b n]]; try reflexivity.
      * cbn in Hd. unfold Pathlib.parse_parts. cbn [PyStr.split].
        cbn in Hs. apply orb_false_elim in Hs. destruct Hs as [-> _].
        cbn [filter]. apply orb_false_elim in Hd. destruct Hd as [Ha _].
        assert (E : String.eqb (String a "") "." = false).
        { cbn. now rewrite Ha. }
        rewrite E. cbn. now rewrite Ha.
      * rewrite parse_single; [exact Hd | exact Hs | cbn; lia].
  - intros Hf Hd Hsf.
    assert (Hp : Pathlib.parse_parts
                   (Pathlib.stem (Pathlib.parse_parts original) ++ "_"
                    ++ strftime_Ymd now ++ "_ocr." ++ format_ext)%string
                 = [(Pathlib.stem (Pathlib.parse_parts original) ++ "_"
                     ++ strftime_Ymd now ++ "_ocr." ++ format_ext)%string]).
    { apply parse_single.
      - rewrite !mem_app, (stem_no_slash _ Hs), strftime_Ymd_no_slash, Hsf.
        reflexivity.
      - rewrite !string_length_app. cbn [String.length]. lia. }
    split; [exact Hp|]. rewrite Hp. apply suffix_extension.
    exists (Pathlib.stem (Pathlib.parse_parts original) ++ "_"
            ++ strftime_Ymd now ++ "_ocr")%string.
    cbn [Pathlib.name last]. split; [|repeat split; auto].
    + rewrite !append_assoc. reflexivity.
    + intros E. apply (f_equal String.length) in E.
      rewrite string_length_app in E. cbn in E. lia.
Qed.

(** [photo.jpg], converted to Markdown on 2 January 2024. *)
Lemma download_filename_witness :
  generate_download_filename Sample.t0 "photo.jpg" "md"
  = "photo_20240102_ocr.md" /\
  Pathlib.suffix
    (Pathlib.parse_parts (generate_download_filename Sample.t0 "photo.jpg" "md"))
  = ".md".
Proof.
  destruct (download_filename Sample.t0 "photo.jpg" "md") as (H1 & _ & H3).
  - cbn. lia.
  - unfold valid_datetime. cbn. lia.
  - reflexivity.
  - split.
    + exact (H1 "photo" "jpg" eq_refl ltac:(discriminate) ltac:(discriminate)
                eq_refl).
    + exact (proj2 (H3 ltac:(discriminate) eq_refl eq_refl)).
Defined.

Example download_filename_edge_cases :
  map (fun n => generate_download_filename Sample.t0 n "md")
      ["a.tar.gz"; ".bashrc"; "trail."; "noext"; ""]
  = ["a.tar_20240102_ocr.md"; ".bashrc_20240102_ocr.md";
     "trail._20240102_ocr.md"; "noext_20240102_ocr.md"; "_20240102_ocr.md"].
Proof. reflexivity. Qed.

(** ** The result file of a successful call *)

Lemma offered_format_literal (output_format : string) :
  offered_format output_format ->
  PyStr.mem "*" output_format = false /\ PyStr.mem "?" output_format = false.
Proof.
  unfold offered_format. cbn [map snd OUTPUT_FORMATS In].
  intros H. repeat (destruct H as [<-|H]; [split; reflexivity|]). destruct H.
Qed.

(** X14. What a successful call returns: for a format the program offers
    ([md], [json], [html], [csv]), the output directory of the tuple is
    [temp/output_<stamp>] of this call, and the output file is an entry of
    that directory which exists when the call returns and whose name ends
    with a dot and the format. *)
Theorem run_yomitoku_result_file engine now input_path output_format
        progress_callback w f d e w' :
  offered_format output_format ->
  run_yomitoku engine now input_path output_format progress_callback w
    = (Ok (true, Some f, Some d, e), w') ->
  d = output_dir_of now /\
  Fs.is_child d f = true /\
  (exists n, Fs.lookup (files w') f = Some n) /\
  exists stem, Pathlib.name f = (stem ++ "." ++ output_format)%string.
Proof.
  intros Hfmt H. destruct (offered_format_literal _ Hfmt) as [Hs Hq].
  destruct (run_yomitoku_returns _ _ _ _ _ _ _ _ H) as (x & Hx & Ht).
  destruct (run_yomitoku_exit_returns _ _ _ _ _ _ _ _ Hx)
    as (r & fs & _ & Hex & ->).
  destruct x; try discriminate. cbn [result_tuple] in Ht.
  injection Ht as -> ->. unfold exit_of in Hex.
  destruct r as [cp|ex]; [|destruct ex; discriminate].
  destruct (returncode cp =? 0)%Z; [|discriminate].
  destruct (Fs.glob_list fs (output_dir_of now) ("*." ++ output_format))
    as [|first rest] eqn:G; [discriminate|].
  injection Hex as -> ->.
  assert (Hin : In first (Fs.glob_list fs (output_dir_of now)
                                       ("*." ++ output_format)))
    by (rewrite G; now left).
  apply (glob_list_matches _ _ _ _ Hs Hq) in Hin.
  destruct Hin as (_ & Hc & Hn). apply in_children in Hc.
  destruct Hc as [Hk Hc]. cbn [files].
  repeat split; auto. now apply keys_lookup.
Qed.

(** The engine leaves [b.md] and [a.md] for [doc.pdf]: the call returns
    [b.md], an entry of its output directory that is there on return. *)
Lemma run_yomitoku_result_file_witness :
  Fs.is_child (output_dir_of Sample.t0) (output_dir_of Sample.t0 ++ ["b.md"])
  = true /\
  (exists n,
      Fs.lookup
        (files (snd (run_yomitoku
                       (Sample.engine_writes Sample.two_markdown_files)
                       Sample.t0 Sample.input_pdf "md" true
                       Sample.uploaded_world)))
        (output_dir_of Sample.t0 ++ ["b.md"]) = Some n) /\
  exists stem,
    Pathlib.name (output_dir_of Sample.t0 ++ ["b.md"]) = (stem ++ ".md")%string.
Proof.
  exact (proj2 (run_yomitoku_result_file
           (Sample.engine_writes Sample.two_markdown_files) Sample.t0
           Sample.input_pdf "md" true Sample.uploaded_world
           (output_dir_of Sample.t0 ++ ["b.md"]) (output_dir_of Sample.t0) None
           (snd (run_yomitoku (Sample.engine_writes Sample.two_markdown_files)
                              Sample.t0 Sample.input_pdf "md" true
                              Sample.uploaded_world))
           ltac:(cbn; tauto) eq_refl)).
Defined.

(** ** Exceptions of the engine *)

(** X15. No exception of [subprocess.run] leaves [run_yomitoku]: a
    [TimeoutExpired] becomes the failure tuple with the timeout message,
    any other exception the failure tuple with ["Error: "] and its text.
    The callback has then received 0.2 only, and the file system is the one
    the engine left, output directory included. *)
Theorem run_yomitoku_engine_exception engine now input_path output_format w
        ex fs :
  engine_invocation engine now input_path output_format w = Some (Raise ex, fs) ->
  run_yomitoku engine now input_path output_format true w
  = (Ok (false, None, None,
         Some (match ex with
               | TimeoutExpired => "Processing timeout (exceeded 5 minutes)"
               | _ => "Error: " ++ exn_str ex
               end)%string),
     mk_world fs (progress w ++ [((2 # 10)%Q, "Running yomitoku...")])
              (notices w)).
Proof.
  intros H. rewrite (run_yomitoku_eq _ _ _ _ true _ _ _ H).
  destruct ex; reflexivity.
Qed.

(** The engine hangs on [doc.pdf]. *)
Lemma run_yomitoku_engine_exception_witness :
  run_yomitoku Sample.engine_hangs Sample.t0 Sample.input_pdf "csv" true
               Sample.uploaded_world
  = (Ok (false, None, None, Some "Processing timeout (exceeded 5 minutes)"),
     mk_world [(TEMP_DIR, Dir); (Sample.input_pdf, File "%PDF");
               (output_dir_of Sample.t0, Dir)]
              [((2 # 10)%Q, "Running yomitoku...")] []).
Proof.
  exact (run_yomitoku_engine_exception
           Sample.engine_hangs Sample.t0 Sample.input_pdf "csv"
           Sample.uploaded_world TimeoutExpired
           [(TEMP_DIR, Dir); (Sample.input_pdf, File "%PDF");
            (output_dir_of Sample.t0, Dir)]
           eq_refl).
Defined.
